(** * Walmart Eco-Pack AI: the box sizing, material recommender and baseline
      estimator of [core_logic.py]

    The development embeds the functions of [src/core_logic.py] and states
    the properties of the specification about them.

    Modelling conventions.
    - A pandas [DataFrame] is the list of its rows in table order; a row is
      a record with one field per CSV column.  Boolean-mask indexing
      [df[mask]] is [filter], which keeps table order.
    - The numeric columns and the scalar arguments (pandas [float64] and
      [int64], Python [float] and [int]) are rationals [Q]: a float64 is
      the rational it holds.  The decimal literals of the source ([0.005],
      [1.2], ...) are the rationals they denote.  [NaN] and the infinities
      of IEEE arithmetic are outside the model; in particular a division by
      zero, which numpy turns into [NaN] or an infinity, is [Qdiv]'s [0]
      here.
    - The one product whose rounding decides a branch, the cost ceiling
      [lowest_cost_material_cost * cost_tolerance_factor], is the float64
      product: the exact product rounded by [fl], the rounding of the
      interface [Float64].  [binary64] is round-to-nearest-even on 53 bits;
      the other arithmetic of the program is exact in the model.
    - A Python call either returns a value or raises; [py A] keeps the two
      apart, so that the [None] of the recommender is never mistaken for an
      [IndexError] of [.iloc[0]].
    - The two global tables [PRODUCTS_DF] and [MATERIALS_DF] are read from
      CSV files that are data, not code: they are section variables.
    - [DataFrame.sort_values] is called without [kind=], that is with
      pandas' default ["quicksort"], for which pandas promises a sorted
      rearrangement and nothing on the order of equal keys.  The sort is an
      interface [SortValues] with exactly this contract; which of several
      rows of equal score comes first is decided inside numpy and is not
      part of the model. *)

From Stdlib Require Import ZArith QArith Qminmax Qround Qpower.
From Stdlib Require Import List String Bool Permutation Sorted Lia Lqa.
Import ListNotations.
Open Scope Q_scope.

Set Implicit Arguments.

(** ** Python results *)

Inductive exn : Type :=
| IndexError.

Inductive py (A : Type) : Type :=
| Return (a : A)
| Raise (e : exn).

Arguments Return {A} a.
Arguments Raise {A} e.

Definition bind {A B : Type} (c : py A) (k : A -> py B) : py B :=
  match c with
  | Return a => k a
  | Raise e => Raise e
  end.

Notation "x <- c ;; k" := (bind c (fun x => k))
  (at level 61, c at next level, right associativity).

(** ** The fragment of pandas the program uses *)

Module Pandas.

(** [df.iloc[0]]: the first row, [IndexError] on an empty frame. *)
Definition iloc0 {A : Type} (df : list A) : py A :=
  match df with
  | [] => Raise IndexError
  | r :: _ => Return r
  end.

(** [df.empty] *)
Definition empty {A : Type} (df : list A) : bool :=
  match df with
  | [] => true
  | _ :: _ => false
  end.

(** [series.max()]; on an empty series pandas answers [NaN], a case no
    caller of this program reaches with a result that is used. *)
Definition max (s : list Q) : Q :=
  match s with
  | [] => 0
  | x :: r => fold_left Qmax r x
  end.

(** [series.min()] *)
Definition min (s : list Q) : Q :=
  match s with
  | [] => 0
  | x :: r => fold_left Qmin r x
  end.

(** [series.sum()] *)
Definition sum (s : list Q) : Q := fold_left Qplus s 0.

(** [series.isin(values)] on one cell. *)
Definition isin (x : string) (values : list string) : bool :=
  existsb (String.eqb x) values.

End Pandas.

(** ** Data model: the rows of the two CSV tables

    The column ['name'] of either table is [product_name], resp.
    [material_name]. *)

Record Product : Type := mkProduct {
  product_id : string;
  product_name : string;
  length_cm : Q;
  width_cm : Q;
  height_cm : Q;
  weight_kg : Q;
  fragility_score : Q;
  current_packaging_material : string
}.

Record Material : Type := mkMaterial {
  material_id : string;
  material_name : string;
  strength_rating : Q;
  recycled_content_percent : Q;
  recyclability_score : Q;
  biodegradability_score : Q;
  carbon_footprint_per_unit_sqm : Q;
  cost_per_unit_area : Q
}.

(** A row of [suitable_materials] once the column ['sustainability_score']
    has been assigned. *)
Record ScoredMaterial : Type := mkScored {
  row : Material;
  sustainability_score : Q
}.

(** The 4-tuple the sizing functions return. *)
Definition Box : Type := (Q * Q * Q * Q)%type.

(** The dict the baseline estimators return. *)
Record Packaging : Type := mkPackaging {
  length : Q;
  width : Q;
  height : Q;
  volume : Q;
  material : Material
}.

(** ** [DataFrame.sort_values(by='sustainability_score', ascending=False)] *)

Definition score_ge (a b : ScoredMaterial) : Prop :=
  sustainability_score b <= sustainability_score a.

Class SortValues : Type := {
  sort_values : list ScoredMaterial -> list ScoredMaterial;
  sort_values_perm : forall df, Permutation (sort_values df) df;
  sort_values_desc : forall df, StronglySorted score_ge (sort_values df)
}.

(** A sorting algorithm with this contract: insertion sort.  A row is
    inserted in front of the first row it [goes_before]. *)

Section Insertion.

Variable goes_before : ScoredMaterial -> ScoredMaterial -> bool.

Fixpoint insert (x : ScoredMaterial) (l : list ScoredMaterial)
  : list ScoredMaterial :=
  match l with
  | [] => [x]
  | y :: r => if goes_before x y then x :: y :: r else y :: insert x r
  end.

Definition insertion_sort (df : list ScoredMaterial) : list ScoredMaterial :=
  fold_right insert [] df.

End Insertion.

(** Stable: a row stays in front of the later rows of equal score. *)
Definition before_stable (x y : ScoredMaterial) : bool :=
  Qle_bool (sustainability_score y) (sustainability_score x).


(** ** float64 arithmetic

    [fl x] is the float64 nearest to the real [x]; the float64 product of
    two float64 values is the rounding of their exact product. *)

Class Float64 : Type := {
  fl : Q -> Q
}.

(** The float64 product [x * y]. *)
Definition fmul {arith : Float64} (x y : Q) : Q := fl (x * y).

(** [x] is a float64: rounding leaves it as it is. *)
Definition is_float {arith : Float64} (x : Q) : Prop := fl x == x.

(** Rounding keeps the order of the reals. *)
Definition rounding_monotone {arith : Float64} : Prop :=
  forall x y, x <= y -> fl x <= fl y.

(** Round to nearest, ties to even, on a significand of 53 bits.  The
    exponent is not bounded: overflow and subnormal numbers are outside the
    model.

    [ilog2 x] is the binary exponent of a positive [x], the integer [k] with
    [2^k <= x < 2^(k+1)]. *)
Definition ilog2 (x : Q) : Z :=
  let d := (Z.log2 (Qnum x) - Z.log2 (Zpos (Qden x)))%Z in
  if Qle_bool (2 ^ d) x then d else (d - 1)%Z.

(** The integer nearest to [m], the even one of two at equal distance. *)
Definition round_half_even (m : Q) : Z :=
  let n := Qfloor m in
  match Qcompare (m - inject_Z n) (1 # 2) with
  | Lt => n
  | Gt => (n + 1)%Z
  | Eq => if Z.even n then n else (n + 1)%Z
  end.

(** A positive [x] is scaled to a significand in [2^52, 2^53), rounded to
    an integer and scaled back. *)
Definition round_positive (x : Q) : Q :=
  let e := (ilog2 x - 52)%Z in
  inject_Z (round_half_even (x / 2 ^ e)) * 2 ^ e.

Definition round_binary64 (x : Q) : Q :=
  match Qcompare 0 x with
  | Eq => 0
  | Lt => round_positive x
  | Gt => - round_positive (- x)
  end.

Definition binary64 : Float64 := {| fl := round_binary64 |}.

(** ** [core_logic.py] *)

Section CoreLogic.

Variable PRODUCTS_DF : list Product.
Variable MATERIALS_DF : list Material.
Context {kind : SortValues} {arith : Float64}.

(** [PRODUCTS_DF[PRODUCTS_DF['product_id'] == product_id].iloc[0]] *)
Definition get_product_data (pid : string) : py Product :=
  Pandas.iloc0 (filter (fun p => String.eqb (product_id p) pid) PRODUCTS_DF).

Definition calculate_optimal_single_box (length width height buffer_cm : Q)
  : Box :=
  let optimal_length := length + buffer_cm in
  let optimal_width := width + buffer_cm in
  let optimal_height := height + buffer_cm in
  let optimal_volume := optimal_length * optimal_width * optimal_height in
  (optimal_length, optimal_width, optimal_height, optimal_volume).

(** The default [buffer_cm=1]. *)
Definition calculate_optimal_single_box_default (length width height : Q)
  : Box :=
  calculate_optimal_single_box length width height 1.

(** [PRODUCTS_DF[PRODUCTS_DF['product_id'].isin(product_ids)]] *)
Definition selected_products (product_ids : list string) : list Product :=
  filter (fun p => Pandas.isin (product_id p) product_ids) PRODUCTS_DF.

Definition calculate_approximate_multi_box (product_ids : list string)
  : Box :=
  let selected := selected_products product_ids in
  if Pandas.empty selected then (0, 0, 0, 0)
  else
    let max_l := Pandas.max (map length_cm selected) in
    let max_w := Pandas.max (map width_cm selected) in
    let sum_h := Pandas.sum (map height_cm selected) in
    let buffer_cm_multi := 2 in
    let optimal_length := max_l + buffer_cm_multi in
    let optimal_width := max_w + buffer_cm_multi in
    let optimal_height := sum_h + buffer_cm_multi in
    let optimal_volume := optimal_length * optimal_width * optimal_height in
    (optimal_length, optimal_width, optimal_height, optimal_volume).

(** *** The recommender, one definition per local variable *)

(** [MATERIALS_DF[MATERIALS_DF['strength_rating'] >= product_fragility]] *)
Definition suitable_materials (product_fragility : Q) : list Material :=
  filter (fun m => Qle_bool product_fragility (strength_rating m))
         MATERIALS_DF.

(** The expression assigned to the column ['sustainability_score']. *)
Definition score_of (m : Material) : Q :=
  recycled_content_percent m * 0.005 +
  recyclability_score m * 0.1 +
  biodegradability_score m * 0.05 +
  (1 - (carbon_footprint_per_unit_sqm m /
        Pandas.max (map carbon_footprint_per_unit_sqm MATERIALS_DF))) * 0.2.

Definition scored_materials (product_fragility : Q) : list ScoredMaterial :=
  map (fun m => mkScored m (score_of m))
      (suitable_materials product_fragility).

(** [suitable_materials] after [sort_values]. *)
Definition sorted_materials (product_fragility : Q) : list ScoredMaterial :=
  sort_values (scored_materials product_fragility).

Definition lowest_cost_material_cost (product_fragility : Q) : Q :=
  Pandas.min (map (fun s => cost_per_unit_area (row s))
                  (sorted_materials product_fragility)).

Definition affordable_sustainable_materials
           (product_fragility cost_tolerance_factor : Q)
  : list ScoredMaterial :=
  filter (fun s => Qle_bool (cost_per_unit_area (row s))
                     (fmul (lowest_cost_material_cost product_fragility)
                           cost_tolerance_factor))
         (sorted_materials product_fragility).

Definition recommend_sustainable_material
           (product_fragility cost_tolerance_factor : Q)
  : py (option ScoredMaterial) :=
  if Pandas.empty (suitable_materials product_fragility) then Return None
  else
    let affordable :=
      affordable_sustainable_materials product_fragility
                                       cost_tolerance_factor in
    if Pandas.empty affordable then
      r <- Pandas.iloc0 (sorted_materials product_fragility) ;;
      Return (Some r)
    else
      r <- Pandas.iloc0 affordable ;;
      Return (Some r).

(** *** The baseline estimators *)

(** [MATERIALS_DF[MATERIALS_DF['material_id'] == mid].iloc[0]] *)
Definition material_by_id (mid : string) : py Material :=
  Pandas.iloc0 (filter (fun m => String.eqb (material_id m) mid) MATERIALS_DF).

Definition get_mock_current_packaging (pid : string) : py Packaging :=
  product <- get_product_data pid ;;
  let current_l := length_cm product * 1.2 in
  let current_w := width_cm product * 1.2 in
  let current_h := height_cm product * 1.2 in
  let current_vol := current_l * current_w * current_h in
  let current_material_id := current_packaging_material product in
  current_material <- material_by_id current_material_id ;;
  Return (mkPackaging current_l current_w current_h current_vol
                      current_material).

Definition get_mock_current_multi_packaging (product_ids : list string)
  : py Packaging :=
  let selected := selected_products product_ids in
  if Pandas.empty selected then
    m <- material_by_id "cardboard_standard" ;;
    Return (mkPackaging 0 0 0 0 m)
  else
    let max_l := Pandas.max (map length_cm selected) in
    let max_w := Pandas.max (map width_cm selected) in
    let sum_h := Pandas.sum (map height_cm selected) in
    let current_l := max_l * 1.5 in
    let current_w := max_w * 1.5 in
    let current_h := sum_h * 1.5 in
    let current_vol := current_l * current_w * current_h in
    current_material <- material_by_id "cardboard_standard" ;;
    Return (mkPackaging current_l current_w current_h current_vol
                        current_material).

End CoreLogic.

(** ** The vocabulary of the specification *)

(** [m] is the greatest (resp. least) value of the series [s]. *)
Definition is_max (m : Q) (s : list Q) : Prop :=
  In m s /\ forall x, In x s -> x <= m.

Definition is_min (m : Q) (s : list Q) : Prop :=
  In m s /\ forall x, In x s -> m <= x.

(** The sum of a series, by recursion on the series. *)
Fixpoint total (s : list Q) : Q :=
  match s with
  | [] => 0
  | x :: r => x + total r
  end.

Section Vocabulary.

Variable PRODUCTS_DF : list Product.
Variable MATERIALS_DF : list Material.
Context {arith : Float64}.

(** The rows an identifier list resolves to. *)
Definition resolves (product_ids : list string) (p : Product) : Prop :=
  In p PRODUCTS_DF /\ In (product_id p) product_ids.

(** [rows] are the rows of [table] whose identifier is in the list, in
    table order. *)
Inductive selects_rows (product_ids : list string)
  : list Product -> list Product -> Prop :=
| selects_none : selects_rows product_ids [] []
| selects_keep p table rows :
    In (product_id p) product_ids ->
    selects_rows product_ids table rows ->
    selects_rows product_ids (p :: table) (p :: rows)
| selects_skip p table rows :
    ~ In (product_id p) product_ids ->
    selects_rows product_ids table rows ->
    selects_rows product_ids (p :: table) rows.

(** [v] is the greatest value of a column over the resolved rows. *)
Definition greatest_over (column : Product -> Q) (product_ids : list string)
           (v : Q) : Prop :=
  (exists p, resolves product_ids p /\ column p = v) /\
  forall p, resolves product_ids p -> column p <= v.

(** [x] is the first row of [table] whose key is [k]. *)
Definition first_row {A : Type} (key : A -> string) (k : string)
           (table : list A) (x : A) : Prop :=
  exists before after,
    table = before ++ x :: after /\ key x = k /\
    forall y, In y before -> key y <> k.

(** The composite score of the specification, for a normalisation
    denominator [M]. *)
Definition composite_score (m : Material) (M : Q) : Q :=
  recycled_content_percent m * 0.005 +
  recyclability_score m * 0.1 +
  biodegradability_score m * 0.05 +
  (1 - carbon_footprint_per_unit_sqm m / M) * 0.2.





End Vocabulary.

(** ** Example tables *)

Module Examples.

Definition cardboard_standard : Material :=
  mkMaterial "cardboard_standard" "Standard Cardboard" 3 30 4 3 0.8 1.0.
Definition cardboard_recycled : Material :=
  mkMaterial "cardboard_recycled" "Recycled Cardboard" 3 90 5 4 0.5 1.25.
Definition bubble_wrap : Material :=
  mkMaterial "bubble_wrap" "Plastic Bubble Wrap" 2 0 2 1 2.0 0.5.
Definition molded_pulp : Material :=
  mkMaterial "molded_pulp" "Molded Pulp" 5 100 5 5 0.4 2.0.

Definition materials : list Material :=
  [cardboard_standard; cardboard_recycled; bubble_wrap; molded_pulp].

Definition mug : Product :=
  mkProduct "P1" "Mug" 10 10 10 0.4 3 "cardboard_standard".
Definition lamp : Product :=
  mkProduct "P2" "Lamp" 20 15 40 1.5 4 "cardboard_recycled".
Definition book : Product :=
  mkProduct "P3" "Book" 24 17 3 0.6 1 "cardboard_standard".

Definition products : list Product := [mug; lamp; book].

(** The rows of the scored frame. *)
Definition scored_row (m : Material) : ScoredMaterial :=
  mkScored m (score_of materials m).

(** A table with a negative cost, which the data model excludes. *)
Definition subsidised : Material :=
  mkMaterial "subsidised" "Subsidised Film" 3 10 2 2 1.0 (-1).

Definition negative_cost_materials : list Material :=
  [subsidised; cardboard_standard].

(** Two materials whose costs are the float64 values of 1.5 and 1.8. *)
Definition kraft_wrap : Material :=
  mkMaterial "kraft_wrap" "Kraft Wrap" 3 10 2 2 1.0 1.5.
Definition pulp_tray : Material :=
  mkMaterial "pulp_tray" "Pulp Tray" 3 100 5 5 0.4
             (8106479329266893 # 4503599627370496).

Definition rounding_materials : list Material := [kraft_wrap; pulp_tray].

End Examples.

(** ** Facts on the arithmetic *)

Module FloatFacts.

(** A comparison result as an order statement. *)
Ltac compare_to_order H :=
  match type of H with
  | _ = Eq => apply Qeq_alt in H
  | _ = Lt => apply Qlt_alt in H
  | _ = Gt => apply Qgt_alt in H
  end.

Lemma two_power_pos (e : Z) : 0 < 2 ^ e.
Proof. apply Qpower_0_lt. reflexivity. Qed.

Lemma two_power_succ (e : Z) : 2 ^ (e + 1) == 2 * 2 ^ e.
Proof.
  rewrite Qpower_plus by discriminate. rewrite Qpower_1_r. ring.
Qed.

Lemma log2_bounds (n : Z) :
  (0 < n)%Z ->
  2 ^ Z.log2 n <= inject_Z n /\ inject_Z n < 2 * 2 ^ Z.log2 n.
Proof.
  intros Hn. destruct (Z.log2_spec n Hn) as [Hlo Hhi].
  pose proof (Z.log2_nonneg n) as Hnn.
  assert (E : inject_Z (2 ^ Z.log2 n) == 2 ^ Z.log2 n)
    by (now rewrite Zpower_Qpower).
  split.
  - rewrite <- E. now rewrite <- Zle_Qle.
  - rewrite <- E. change 2 with (inject_Z 2) at 1. rewrite <- inject_Z_mult.
    rewrite <- Zlt_Qlt. rewrite Z.pow_succ_r in Hhi by exact Hnn. exact Hhi.
Qed.

Lemma ilog2_spec (x : Q) :
  0 < x -> 2 ^ ilog2 x <= x /\ x < 2 ^ (ilog2 x + 1).
Proof.
  intros Hx. unfold ilog2.
  set (a := Z.log2 (Qnum x)). set (b := Z.log2 (Z.pos (Qden x))).
  assert (Hp : (0 < Qnum x)%Z).
  { destruct x as [p q]. unfold Qlt in Hx. simpl in *. lia. }
  destruct (@log2_bounds (Qnum x) Hp) as [Pa Pb]. fold a in Pa, Pb.
  destruct (@log2_bounds (Z.pos (Qden x)) eq_refl) as [Qa Qb].
  fold b in Qa, Qb.
  assert (Hq : 0 < inject_Z (Z.pos (Qden x))) by reflexivity.
  assert (Ex : x * inject_Z (Z.pos (Qden x)) == inject_Z (Qnum x)).
  { destruct x as [p q]. simpl. rewrite (Qmake_Qdiv p q). field.
    discriminate. }
  pose proof (two_power_pos a) as HA. pose proof (two_power_pos b) as HB.
  pose proof (two_power_pos (a - b)) as HD.
  assert (Ed : 2 ^ (a - b) * 2 ^ b == 2 ^ a).
  { rewrite <- Qpower_plus by discriminate. now replace (a - b + b)%Z with a
      by lia. }
  set (P := inject_Z (Qnum x)) in *. set (R := inject_Z (Z.pos (Qden x))) in *.
  set (A := 2 ^ a) in *. set (B := 2 ^ b) in *. set (D := 2 ^ (a - b)) in *.
  destruct (Qle_bool D x) eqn:E.
  - apply Qle_bool_iff in E. split; [exact E|].
    rewrite two_power_succ. fold D.
    apply Qnot_le_lt. intros Hc.
    assert (H1 : 2 * D * B <= x * R) by nra. nra.
  - assert (E' : x < D).
    { apply Qnot_le_lt. intros Hc. apply Qle_bool_iff in Hc. congruence. }
    replace (a - b - 1 + 1)%Z with (a - b)%Z by lia. fold D.
    split; [|exact E'].
    assert (E2 : 2 * 2 ^ (a - b - 1) == D).
    { rewrite <- two_power_succ. now replace (a - b - 1 + 1)%Z with (a - b)%Z
        by lia. }
    pose proof (two_power_pos (a - b - 1)) as HD'.
    set (D' := 2 ^ (a - b - 1)) in *.
    apply Qnot_lt_le. intros Hc.
    assert (H1 : x * R < D' * (2 * B)) by nra. nra.
Qed.

Lemma ilog2_monotone (x y : Q) :
  0 < x -> x <= y -> (ilog2 x <= ilog2 y)%Z.
Proof.
  intros Hx Hxy.
  destruct (@ilog2_spec x Hx) as [Lx _].
  destruct (@ilog2_spec y) as [_ Uy]; [lra|].
  assert (H : 2 ^ ilog2 x < 2 ^ (ilog2 y + 1)) by lra.
  apply Qpower_lt_compat_l_inv in H; [lia|reflexivity].
Qed.

Lemma round_half_even_bounds (m : Q) :
  (Qfloor m <= round_half_even m <= Qfloor m + 1)%Z.
Proof.
  unfold round_half_even.
  destruct (Qcompare _ _); [destruct (Z.even _)| |]; lia.
Qed.

Lemma round_half_even_monotone (m1 m2 : Q) :
  m1 <= m2 -> (round_half_even m1 <= round_half_even m2)%Z.
Proof.
  intros H12. pose proof (@Qfloor_resp_le m1 m2 H12) as Hfl.
  pose proof (round_half_even_bounds m1) as B1.
  pose proof (round_half_even_bounds m2) as B2.
  destruct (Z.eq_dec (Qfloor m1) (Qfloor m2)) as [E|NE]; [|lia].
  clear B1 B2 Hfl.
  unfold round_half_even. rewrite <- E.
  set (n := Qfloor m1).
  destruct (Qcompare (m1 - inject_Z n) (1 # 2)) eqn:C1;
    destruct (Qcompare (m2 - inject_Z n) (1 # 2)) eqn:C2;
    try (destruct (Z.even n)); try lia.
  all: compare_to_order C1; compare_to_order C2; exfalso; lra.
Qed.

Lemma round_half_even_ge (k : Z) (m : Q) :
  inject_Z k <= m -> (k <= round_half_even m)%Z.
Proof.
  intros H. pose proof (round_half_even_bounds m) as B.
  apply Qfloor_resp_le in H. rewrite Qfloor_Z in H. lia.
Qed.

Lemma round_half_even_le (k : Z) (m : Q) :
  m < inject_Z k -> (round_half_even m <= k)%Z.
Proof.
  intros H. pose proof (round_half_even_bounds m) as B.
  assert (Hf : (Qfloor m < k)%Z).
  { apply Z.lt_nge. intros Hc. rewrite Zle_Qle in Hc.
    pose proof (Qfloor_le m). lra. }
  lia.
Qed.

(** The ends of the binade of exponent [k], on the grid of step
    [2^(k - 52)]. *)
Lemma binade_bounds (k : Z) :
  2 ^ k == inject_Z (2 ^ 52) * 2 ^ (k - 52) /\
  2 ^ (k + 1) == inject_Z (2 ^ 53) * 2 ^ (k - 52).
Proof.
  split.
  - rewrite (Zpower_Qpower 2 52) by lia. change (inject_Z 2) with 2.
    rewrite <- Qpower_plus by discriminate.
    now replace (52 + (k - 52))%Z with k by lia.
  - rewrite (Zpower_Qpower 2 53) by lia. change (inject_Z 2) with 2.
    rewrite <- Qpower_plus by discriminate.
    now replace (53 + (k - 52))%Z with (k + 1)%Z by lia.
Qed.

(** The significand of a positive real lies in [2^52, 2^53). *)
Lemma significand_bounds (x : Q) :
  0 < x ->
  inject_Z (2 ^ 52) <= x / 2 ^ (ilog2 x - 52) /\
  x / 2 ^ (ilog2 x - 52) < inject_Z (2 ^ 53).
Proof.
  intros Hx. destruct (@ilog2_spec x Hx) as [L U].
  pose proof (two_power_pos (ilog2 x - 52)) as He.
  destruct (binade_bounds (ilog2 x)) as [E1 E2].
  split.
  - apply Qle_shift_div_l; [exact He|]. now rewrite <- E1.
  - apply Qlt_shift_div_r; [exact He|]. now rewrite <- E2.
Qed.

Lemma round_positive_bounds (x : Q) :
  0 < x ->
  2 ^ ilog2 x <= round_positive x /\ round_positive x <= 2 ^ (ilog2 x + 1).
Proof.
  intros Hx. destruct (@significand_bounds x Hx) as [L U].
  pose proof (two_power_pos (ilog2 x - 52)) as He.
  apply round_half_even_ge in L. apply round_half_even_le in U.
  unfold round_positive.
  set (n := round_half_even (x / 2 ^ (ilog2 x - 52))) in *.
  destruct (binade_bounds (ilog2 x)) as [E1 E2].
  rewrite E1, E2. rewrite Zle_Qle in L, U.
  split; apply Qmult_le_compat_r; lra.
Qed.

Lemma round_positive_monotone (x y : Q) :
  0 < x -> x <= y -> round_positive x <= round_positive y.
Proof.
  intros Hx Hxy. assert (Hy : 0 < y) by lra.
  pose proof (@ilog2_monotone x y Hx Hxy) as Hk.
  destruct (Z.eq_dec (ilog2 x) (ilog2 y)) as [E|NE].
  - unfold round_positive. rewrite E.
    pose proof (two_power_pos (ilog2 y - 52)) as He.
    apply Qmult_le_compat_r; [|lra]. rewrite <- Zle_Qle.
    apply round_half_even_monotone.
    unfold Qdiv. apply Qmult_le_compat_r; [exact Hxy|].
    apply Qlt_le_weak, Qinv_lt_0_compat, He.
  - destruct (@round_positive_bounds x Hx) as [_ Ux].
    destruct (@round_positive_bounds y Hy) as [Ly _].
    assert (H : 2 ^ (ilog2 x + 1) <= 2 ^ ilog2 y).
    { apply Qpower_le_compat_l; [lia|]. discriminate. }
    lra.
Qed.

Lemma round_positive_pos (x : Q) : 0 < x -> 0 < round_positive x.
Proof.
  intros Hx. destruct (@round_positive_bounds x Hx) as [L _].
  pose proof (two_power_pos (ilog2 x)). lra.
Qed.

Lemma round_binary64_monotone (x y : Q) :
  x <= y -> round_binary64 x <= round_binary64 y.
Proof.
  intros Hxy. unfold round_binary64.
  destruct (Qcompare 0 x) eqn:Cx; destruct (Qcompare 0 y) eqn:Cy;
    compare_to_order Cx; compare_to_order Cy;
    try (exfalso; lra); try lra.
  - pose proof (@round_positive_pos y Cy). lra.
  - now apply round_positive_monotone.
  - assert (H : 0 < - x) by lra. pose proof (@round_positive_pos (- x) H). lra.
  - assert (H : 0 < - x) by lra. pose proof (@round_positive_pos (- x) H).
    pose proof (@round_positive_pos y Cy). lra.
  - assert (H : 0 < - y) by lra.
    assert (H' : - y <= - x) by lra.
    pose proof (@round_positive_monotone (- y) (- x) H H'). lra.
Qed.

(** The binary exponent is determined by the binade. *)
Lemma ilog2_unique (y : Q) (j : Z) :
  2 ^ j <= y -> y < 2 ^ (j + 1) -> ilog2 y = j.
Proof.
  intros L U. pose proof (two_power_pos j) as Hj.
  assert (Hy : 0 < y) by lra.
  destruct (@ilog2_spec y Hy) as [L' U'].
  assert (H1 : 2 ^ j < 2 ^ (ilog2 y + 1)) by lra.
  assert (H2 : 2 ^ ilog2 y < 2 ^ (j + 1)) by lra.
  apply Qpower_lt_compat_l_inv in H1; [|reflexivity].
  apply Qpower_lt_compat_l_inv in H2; [|reflexivity]. lia.
Qed.

Lemma round_half_even_integer (m : Q) (n : Z) :
  m == inject_Z n -> round_half_even m = n.
Proof.
  intros E. unfold round_half_even.
  assert (Hf : Qfloor m = n) by (rewrite E; apply Qfloor_Z).
  rewrite Hf.
  destruct (Qcompare (m - inject_Z n) (1 # 2)) eqn:C; compare_to_order C.
  - exfalso. lra.
  - reflexivity.
  - exfalso. lra.
Qed.

(** A value on the grid of its binade is left as it is. *)
Lemma round_positive_grid (n e : Z) :
  (2 ^ 52 <= n <= 2 ^ 53)%Z ->
  round_positive (inject_Z n * 2 ^ e) == inject_Z n * 2 ^ e.
Proof.
  intros [Hlo Hhi]. pose proof (two_power_pos e) as He.
  destruct (binade_bounds (e + 52)) as [E1 E2].
  replace (e + 52 - 52)%Z with e in E1, E2 by lia.
  rewrite Zle_Qle in Hlo, Hhi.
  assert (H53 : 0 < inject_Z (2 ^ 53)) by reflexivity.
  assert (H52 : 0 < inject_Z (2 ^ 52)) by reflexivity.
  destruct (Z.eq_dec n (2 ^ 53)) as [->|Hn].
  - assert (Hk : ilog2 (inject_Z (2 ^ 53) * 2 ^ e) = (e + 52 + 1)%Z).
    { apply ilog2_unique.
      - rewrite E2. lra.
      - rewrite (two_power_succ (e + 52 + 1)), E2. nra. }
    unfold round_positive. rewrite Hk.
    replace (e + 52 + 1 - 52)%Z with (e + 1)%Z by lia.
    pose proof (two_power_pos (e + 1)) as He1.
    pose proof (two_power_succ e) as Es.
    rewrite (@round_half_even_integer _ (2 ^ 52)).
    + rewrite Es. change (inject_Z (2 ^ 53)) with (2 * inject_Z (2 ^ 52)).
      ring.
    + rewrite Es. change (inject_Z (2 ^ 53)) with (2 * inject_Z (2 ^ 52)).
      field. lra.
  - assert (Hlt : inject_Z n < inject_Z (2 ^ 53)).
    { rewrite <- Zlt_Qlt. rewrite <- Zle_Qle in Hhi. lia. }
    assert (Hk : ilog2 (inject_Z n * 2 ^ e) = (e + 52)%Z).
    { apply ilog2_unique.
      - rewrite E1. apply Qmult_le_compat_r; lra.
      - rewrite E2. apply Qmult_lt_compat_r; lra. }
    unfold round_positive. rewrite Hk.
    replace (e + 52 - 52)%Z with e by lia.
    rewrite (@round_half_even_integer _ n); [reflexivity|].
    field. lra.
Qed.

Lemma round_positive_comp (x y : Q) :
  0 < x -> x == y -> round_positive x == round_positive y.
Proof.
  intros Hx E. apply Qle_antisym; apply round_positive_monotone; lra.
Qed.

(** Rounding is idempotent: the values of [round_binary64] are float64
    values. *)
Lemma round_positive_idempotent (x : Q) :
  0 < x -> round_positive (round_positive x) == round_positive x.
Proof.
  intros Hx. destruct (@significand_bounds x Hx) as [L U].
  apply round_half_even_ge in L. apply round_half_even_le in U.
  unfold round_positive at 2 3. now apply round_positive_grid.
Qed.

Lemma round_binary64_idempotent (x : Q) :
  round_binary64 (round_binary64 x) == round_binary64 x.
Proof.
  unfold round_binary64 at 2 3.
  destruct (Qcompare 0 x) eqn:Cx; compare_to_order Cx.
  - reflexivity.
  - pose proof (@round_positive_pos x Cx) as Hp.
    unfold round_binary64.
    destruct (Qcompare 0 (round_positive x)) eqn:C; compare_to_order C;
      try (exfalso; lra).
    now apply round_positive_idempotent.
  - assert (Hn : 0 < - x) by lra.
    pose proof (@round_positive_pos (- x) Hn) as Hp.
    unfold round_binary64.
    destruct (Qcompare 0 (- round_positive (- x))) eqn:C; compare_to_order C;
      try (exfalso; lra).
    assert (E : round_positive (- - round_positive (- x)) ==
                round_positive (round_positive (- x))).
    { apply round_positive_comp; [lra|ring]. }
    rewrite E. now rewrite round_positive_idempotent.
Qed.

Lemma binary64_float (x : Q) : @is_float binary64 (@fl binary64 x).
Proof.
  apply round_binary64_idempotent.
Qed.

Lemma binary64_monotone : @rounding_monotone binary64.
Proof.
  intros x y Hxy. now apply round_binary64_monotone.
Qed.

End FloatFacts.

(** ** Facts on the pandas fragment *)

Module PandasFacts.

Lemma Qmax_pick (a b : Q) : Qmax a b = a \/ Qmax a b = b.
Proof.
  unfold Qmax, GenericMinMax.gmax. destruct (a ?= b); auto.
Qed.

Lemma Qmin_pick (a b : Q) : Qmin a b = a \/ Qmin a b = b.
Proof.
  unfold Qmin, GenericMinMax.gmin. destruct (a ?= b); auto.
Qed.

Lemma fold_max_spec (r : list Q) :
  forall x, is_max (fold_left Qmax r x) (x :: r).
Proof.
  induction r as [|y r IH]; intros x; simpl.
  - split; [now left|]. intros z [<-|[]]. apply Qle_refl.
  - destruct (IH (Qmax x y)) as [Hin Hub]. split.
    + destruct Hin as [Heq|Hin]; [|now right; right].
      rewrite <- Heq. destruct (Qmax_pick x y) as [->| ->]; simpl; auto.
    + intros z Hz.
      assert (Hxy : z <= Qmax x y \/ In z r).
      { destruct Hz as [<-|[<-|Hz]]; auto.
        - left. apply Q.le_max_l.
        - left. apply Q.le_max_r. }
      destruct Hxy as [Hle|Hz'].
      * eapply Qle_trans; [exact Hle|]. apply Hub. now left.
      * apply Hub. now right.
Qed.

Lemma fold_min_spec (r : list Q) :
  forall x, is_min (fold_left Qmin r x) (x :: r).
Proof.
  induction r as [|y r IH]; intros x; simpl.
  - split; [now left|]. intros z [<-|[]]. apply Qle_refl.
  - destruct (IH (Qmin x y)) as [Hin Hlb]. split.
    + destruct Hin as [Heq|Hin]; [|now right; right].
      rewrite <- Heq. destruct (Qmin_pick x y) as [->| ->]; simpl; auto.
    + intros z Hz.
      assert (Hxy : Qmin x y <= z \/ In z r).
      { destruct Hz as [<-|[<-|Hz]]; auto.
        - left. apply Q.le_min_l.
        - left. apply Q.le_min_r. }
      destruct Hxy as [Hle|Hz'].
      * eapply Qle_trans; [|exact Hle]. apply Hlb. now left.
      * apply Hlb. now right.
Qed.

Lemma max_spec (s : list Q) : s <> [] -> is_max (Pandas.max s) s.
Proof.
  destruct s as [|x r]; [congruence|]. intros _. apply fold_max_spec.
Qed.

Lemma min_spec (s : list Q) : s <> [] -> is_min (Pandas.min s) s.
Proof.
  destruct s as [|x r]; [congruence|]. intros _. apply fold_min_spec.
Qed.

Lemma fold_plus_total (s : list Q) :
  forall acc, fold_left Qplus s acc == acc + total s.
Proof.
  induction s as [|x r IH]; intros acc; simpl.
  - ring.
  - rewrite IH. ring.
Qed.

Lemma sum_total (s : list Q) : Pandas.sum s == total s.
Proof.
  unfold Pandas.sum. rewrite fold_plus_total. ring.
Qed.

Lemma empty_true {A : Type} (df : list A) :
  Pandas.empty df = true <-> df = [].
Proof.
  destruct df; simpl; split; congruence.
Qed.

Lemma empty_false {A : Type} (df : list A) :
  Pandas.empty df = false <-> df <> [].
Proof.
  destruct df; simpl; split; congruence.
Qed.

Lemma isin_In (x : string) (values : list string) :
  Pandas.isin x values = true <-> In x values.
Proof.
  unfold Pandas.isin. rewrite existsb_exists. split.
  - intros [y [Hy Heq]]. apply String.eqb_eq in Heq. now subst.
  - intros H. exists x. split; [exact H|apply String.eqb_refl].
Qed.

Lemma map_nonempty {A B : Type} (f : A -> B) (l : list A) :
  l <> [] -> map f l <> [].
Proof.
  destruct l; simpl; congruence.
Qed.

Lemma iloc0_filter_Return {A : Type} (f : A -> bool) (df : list A) (x : A) :
  Pandas.iloc0 (filter f df) = Return x -> In x df /\ f x = true.
Proof.
  intros H. destruct (filter f df) as [|y ys] eqn:E; [discriminate H|].
  injection H as ->. apply filter_In. rewrite E. now left.
Qed.

Lemma iloc0_filter_Raise {A : Type} (f : A -> bool) (df : list A) :
  (forall x, In x df -> f x = false) ->
  Pandas.iloc0 (filter f df) = Raise IndexError.
Proof.
  intros Hno. destruct (filter f df) as [|y ys] eqn:E; [reflexivity|].
  assert (Hin : In y (filter f df)) by (rewrite E; now left).
  apply filter_In in Hin. destruct Hin as [Hin Hf].
  rewrite (Hno y Hin) in Hf. discriminate Hf.
Qed.

(** [df[mask].iloc[0]] is the first row of [df] that passes the mask. *)
Lemma iloc0_filter_first {A : Type} (f : A -> bool) (df : list A) (x : A) :
  Pandas.iloc0 (filter f df) = Return x <->
  exists before after,
    df = before ++ x :: after /\ f x = true /\
    forall y, In y before -> f y = false.
Proof.
  induction df as [|a df IH]; simpl.
  - split; [discriminate|]. intros [before [after [E _]]].
    now destruct before.
  - destruct (f a) eqn:Fa; simpl.
    + split.
      * intros H. injection H as <-. exists [], df. simpl. auto.
        repeat split; auto. intros y [].
      * intros [before [after [E [Fx Hno]]]].
        destruct before as [|b before]; simpl in E.
        -- now injection E as ->.
        -- injection E as <- _. rewrite (Hno a) in Fa; [discriminate|].
           now left.
    + rewrite IH. split.
      * intros [before [after [-> [Fx Hno]]]].
        exists (a :: before), after. repeat split; auto.
        intros y [<-|Hy]; auto.
      * intros [before [after [E [Fx Hno]]]].
        destruct before as [|b before]; simpl in E.
        -- injection E as -> _. congruence.
        -- injection E as _ ->. exists before, after. repeat split; auto.
           intros y Hy. apply Hno. now right.
Qed.

Lemma iloc0_filter_Raise_iff {A : Type} (f : A -> bool) (df : list A) :
  Pandas.iloc0 (filter f df) = Raise IndexError <->
  forall x, In x df -> f x = false.
Proof.
  split; [|apply iloc0_filter_Raise].
  intros H x Hin. destruct (f x) eqn:Fx; [|reflexivity].
  assert (Hx : In x (filter f df)) by (apply filter_In; auto).
  destruct (filter f df); [destruct Hx|discriminate H].
Qed.

End PandasFacts.

(** ** Facts on sorted frames *)

Module SortFacts.

(** The two insertion sorts meet the contract of [sort_values]. *)
Section InsertionContract.

Variable goes_before : ScoredMaterial -> ScoredMaterial -> bool.
Hypothesis before_ge : forall x y, goes_before x y = true -> score_ge x y.
Hypothesis not_before_ge :
  forall x y, goes_before x y = false -> score_ge y x.

Lemma insert_perm (x : ScoredMaterial) (l : list ScoredMaterial) :
  Permutation (insert goes_before x l) (x :: l).
Proof.
  induction l as [|y r IH]; simpl.
  - apply Permutation_refl.
  - destruct (goes_before x y).
    + apply Permutation_refl.
    + eapply perm_trans; [apply perm_skip, IH|apply perm_swap].
Qed.

Lemma insertion_sort_perm (df : list ScoredMaterial) :
  Permutation (insertion_sort goes_before df) df.
Proof.
  induction df as [|x r IH]; simpl.
  - apply perm_nil.
  - eapply perm_trans; [apply insert_perm|]. now apply perm_skip.
Qed.

Lemma insert_sorted (x : ScoredMaterial) (l : list ScoredMaterial) :
  StronglySorted score_ge l ->
  StronglySorted score_ge (insert goes_before x l).
Proof.
  induction 1 as [|y r Hs IH Hall]; simpl.
  - repeat constructor.
  - destruct (goes_before x y) eqn:E.
    + constructor; [now constructor|].
      apply before_ge in E. constructor; [exact E|].
      rewrite Forall_forall in *. intros z Hz.
      unfold score_ge in *. eapply Qle_trans; [apply Hall, Hz|exact E].
    + constructor; [exact IH|].
      rewrite Forall_forall in *. intros z Hz.
      apply (Permutation_in _ (insert_perm x r)) in Hz.
      destruct Hz as [<-|Hz]; [now apply not_before_ge|now apply Hall].
Qed.

Lemma insertion_sort_sorted (df : list ScoredMaterial) :
  StronglySorted score_ge (insertion_sort goes_before df).
Proof.
  induction df as [|x r IH]; simpl.
  - constructor.
  - now apply insert_sorted.
Qed.

End InsertionContract.

Lemma before_stable_ge x y : before_stable x y = true -> score_ge x y.
Proof.
  unfold before_stable, score_ge. apply Qle_bool_imp_le.
Qed.

Lemma before_stable_not x y : before_stable x y = false -> score_ge y x.
Proof.
  unfold before_stable, score_ge. intros H.
  apply Qlt_le_weak, Qnot_le_lt. intros Hle.
  apply Qle_bool_iff in Hle. congruence.
Qed.

(** The first row of a frame sorted by descending score has the greatest
    score, and a mask keeps the frame sorted. *)
Lemma sorted_head_greatest (a : ScoredMaterial) (l : list ScoredMaterial) :
  StronglySorted score_ge (a :: l) ->
  forall s, In s (a :: l) -> sustainability_score s <= sustainability_score a.
Proof.
  intros Hs s [<-|Hin].
  - apply Qle_refl.
  - apply StronglySorted_inv in Hs. destruct Hs as [_ Hall].
    rewrite Forall_forall in Hall. now apply Hall.
Qed.

Lemma sorted_filter (f : ScoredMaterial -> bool) (l : list ScoredMaterial) :
  StronglySorted score_ge l -> StronglySorted score_ge (filter f l).
Proof.
  induction 1 as [|a r Hs IH Hall]; simpl.
  - constructor.
  - destruct (f a); [|exact IH].
    constructor; [exact IH|].
    rewrite Forall_forall in *. intros z Hz.
    apply filter_In in Hz. now apply Hall.
Qed.

End SortFacts.

(** [kind='stable'] (and the insertion sort numpy's quicksort falls back to
    on short arrays). *)
Definition kind_stable : SortValues := {|
    sort_values := insertion_sort before_stable;
    sort_values_perm :=
      SortFacts.insertion_sort_perm before_stable;
    sort_values_desc :=
      @SortFacts.insertion_sort_sorted before_stable
        SortFacts.before_stable_ge SortFacts.before_stable_not
  |}.

(** ** The recommender, step by step *)

Module RecommenderFacts.
Import PandasFacts SortFacts.

Section Steps.

Variable MATERIALS_DF : list Material.
Context {kind : SortValues} {arith : Float64}.

#[local] Abbreviation suitable := (suitable_materials MATERIALS_DF).
#[local] Abbreviation scored := (scored_materials MATERIALS_DF).
#[local] Abbreviation sorted := (sorted_materials MATERIALS_DF).
#[local] Abbreviation lowest := (lowest_cost_material_cost MATERIALS_DF).
#[local] Abbreviation affordable :=
  (affordable_sustainable_materials MATERIALS_DF).
#[local] Abbreviation recommend :=
  (recommend_sustainable_material MATERIALS_DF).

(** Step 1. *)
Lemma suitable_In (f : Q) (m : Material) :
  In m (suitable f) <-> In m MATERIALS_DF /\ f <= strength_rating m.
Proof.
  unfold suitable_materials. rewrite filter_In, Qle_bool_iff. tauto.
Qed.

Lemma suitable_empty (f : Q) :
  suitable f = [] <->
  forall m, In m MATERIALS_DF -> ~ f <= strength_rating m.
Proof.
  split.
  - intros Hnil m Hin Hle.
    assert (Hm : In m (suitable f)) by (apply suitable_In; auto).
    now rewrite Hnil in Hm.
  - intros Hno. destruct (suitable f) as [|m ms] eqn:E; [reflexivity|].
    assert (Hm : In m (suitable f)) by (rewrite E; now left).
    apply suitable_In in Hm. destruct Hm as [Hin Hle].
    now destruct (Hno m Hin).
Qed.

(** Step 2. *)
Lemma scored_In (f : Q) (s : ScoredMaterial) :
  In s (scored f) <->
  In (row s) (suitable f) /\
  sustainability_score s = score_of MATERIALS_DF (row s).
Proof.
  unfold scored_materials. rewrite in_map_iff. split.
  - intros [m [<- Hm]]. simpl. auto.
  - intros [Hin Hs]. exists (row s). split; [|exact Hin].
    destruct s as [m sc]. simpl in *. now subst.
Qed.

(** Step 3. *)
Lemma sorted_In (f : Q) (s : ScoredMaterial) :
  In s (sorted f) <-> In s (scored f).
Proof.
  unfold sorted_materials. split; apply Permutation_in.
  - apply sort_values_perm.
  - apply Permutation_sym, sort_values_perm.
Qed.

Lemma sorted_desc (f : Q) : StronglySorted score_ge (sorted f).
Proof.
  apply sort_values_desc.
Qed.

Lemma sorted_nonempty (f : Q) : suitable f <> [] -> sorted f <> [].
Proof.
  intros Hne Hnil. apply Hne.
  assert (Hp : Permutation (sorted f) (scored f))
    by apply sort_values_perm.
  rewrite Hnil in Hp. apply Permutation_nil in Hp.
  unfold scored_materials in Hp. now apply map_eq_nil in Hp.
Qed.

(** Step 4. *)
Lemma lowest_is_min (f : Q) :
  suitable f <> [] ->
  is_min (lowest f)
         (map (fun s => cost_per_unit_area (row s)) (sorted f)).
Proof.
  intros Hne. apply min_spec, map_nonempty. now apply sorted_nonempty.
Qed.

Lemma affordable_In (f t : Q) (s : ScoredMaterial) :
  In s (affordable f t) <->
  In s (sorted f) /\ cost_per_unit_area (row s) <= fmul (lowest f) t.
Proof.
  unfold affordable_sustainable_materials.
  rewrite filter_In, Qle_bool_iff. tauto.
Qed.

Lemma affordable_desc (f t : Q) : StronglySorted score_ge (affordable f t).
Proof.
  apply sorted_filter, sorted_desc.
Qed.

(** Step 5: the three ways out of the function. *)
Inductive outcome (f t : Q) : py (option ScoredMaterial) -> Prop :=
| no_suitable :
    suitable f = [] ->
    outcome f t (Return None)
| fallback r rest :
    suitable f <> [] -> affordable f t = [] -> sorted f = r :: rest ->
    outcome f t (Return (Some r))
| top_affordable r rest :
    suitable f <> [] -> affordable f t = r :: rest ->
    outcome f t (Return (Some r)).

Lemma recommend_outcome (f t : Q) : outcome f t (recommend f t).
Proof.
  unfold recommend_sustainable_material.
  destruct (suitable f) as [|m0 ms] eqn:Hs; simpl.
  - now constructor.
  - assert (Hne : suitable f <> []) by (rewrite Hs; discriminate).
    destruct (affordable f t) as [|r rest] eqn:Ha; simpl.
    + destruct (sorted f) as [|r rest] eqn:Hsd.
      * exfalso. now apply (@sorted_nonempty f Hne).
      * simpl. eapply fallback; eauto.
    + eapply top_affordable; eauto.
Qed.

(** Whatever is returned is a row of the sorted frame of greatest score
    among the rows it was taken from. *)
Lemma fallback_greatest (f : Q) (r : ScoredMaterial) rest :
  sorted f = r :: rest ->
  forall s, In s (sorted f) ->
            sustainability_score s <= sustainability_score r.
Proof.
  intros Hsd s Hin. rewrite Hsd in Hin.
  apply (@sorted_head_greatest r rest); [|exact Hin].
  rewrite <- Hsd. apply sorted_desc.
Qed.

Lemma affordable_greatest (f t : Q) (r : ScoredMaterial) rest :
  affordable f t = r :: rest ->
  forall s, In s (affordable f t) ->
            sustainability_score s <= sustainability_score r.
Proof.
  intros Ha s Hin. rewrite Ha in Hin.
  apply (@sorted_head_greatest r rest); [|exact Hin].
  rewrite <- Ha. apply affordable_desc.
Qed.

Lemma returned_in_sorted (f t : Q) (r : ScoredMaterial) :
  recommend f t = Return (Some r) -> In r (sorted f).
Proof.
  intros Hr. pose proof (recommend_outcome f t) as Ho.
  rewrite Hr in Ho. inversion Ho as [|r' rest _ _ Hsd|r' rest _ Ha]; subst.
  - rewrite Hsd. now left.
  - assert (Hin : In r (affordable f t)) by (rewrite Ha; now left).
    now apply affordable_In in Hin.
Qed.

Lemma recommend_some (f t : Q) :
  suitable f <> [] -> exists r, recommend f t = Return (Some r).
Proof.
  intros Hne.
  destruct (recommend_outcome f t) as [Hs|r rest _ _ _|r rest _ _].
  - contradiction.
  - now exists r.
  - now exists r.
Qed.

End Steps.

End RecommenderFacts.

(** ** The properties of the specification *)

Section Properties.
Import PandasFacts SortFacts RecommenderFacts.

Variable PRODUCTS_DF : list Product.
Variable MATERIALS_DF : list Material.
Context {kind : SortValues} {arith : Float64}.

(** *** Material recommender: absence and suitability *)

(** C1. [recommend_sustainable_material] returns [None] if and only if no
    material of the table has a strength rating greater than or equal to
    the fragility; otherwise it returns a material: it never raises. *)
Theorem recommend_none_iff_no_suitable (f t : Q) :
  (recommend_sustainable_material MATERIALS_DF f t = Return None <->
   forall m, In m MATERIALS_DF -> ~ f <= strength_rating m) /\
  (recommend_sustainable_material MATERIALS_DF f t <> Return None ->
   exists r,
     recommend_sustainable_material MATERIALS_DF f t = Return (Some r)).
Proof.
  pose proof (recommend_outcome MATERIALS_DF f t) as Ho.
  rewrite <- suitable_empty. split; [split|].
  - intros Hnone. rewrite Hnone in Ho. now inversion Ho.
  - intros Hnil. destruct Ho as [_|r rest Hne _ _|r rest Hne _].
    + reflexivity.
    + contradiction.
    + contradiction.
  - intros Hnn. destruct Ho as [Hs|r rest _ _ _|r rest _ _].
    + congruence.
    + now exists r.
    + now exists r.
Qed.

(** C2. Whenever [recommend_sustainable_material] returns a material, the
    material is a row of the table whose strength rating is greater than
    or equal to the fragility, whatever the cost tolerance factor. *)
Theorem recommend_strength_ok (f t : Q) (r : ScoredMaterial) :
  recommend_sustainable_material MATERIALS_DF f t = Return (Some r) ->
  In (row r) MATERIALS_DF /\ f <= strength_rating (row r).
Proof.
  intros Hr. apply returned_in_sorted in Hr.
  apply sorted_In, scored_In in Hr. destruct Hr as [Hin _].
  now apply suitable_In in Hin.
Qed.

(** *** Box sizing *)

(** C3. [calculate_optimal_single_box] returns the dimensions
    [(l+b, w+b, h+b)] and their product as volume. *)
Theorem optimal_single_box_spec (l w h b : Q) :
  calculate_optimal_single_box l w h b =
  (l + b, w + b, h + b, (l + b) * (w + b) * (h + b)).
Proof.
  reflexivity.
Qed.

(** With positive dimensions and a buffer that is not negative, no
    dimension shrinks and the volume is positive. *)
Lemma optimal_single_box_positive (l w h b : Q) :
  0 < l -> 0 < w -> 0 < h -> 0 <= b ->
  let '(l', w', h', v) := calculate_optimal_single_box l w h b in
  l <= l' /\ w <= w' /\ h <= h' /\ 0 < v.
Proof.
  intros Hl Hw Hh Hb. simpl. repeat split; try lra.
  apply Qmult_lt_0_compat; [apply Qmult_lt_0_compat|]; lra.
Qed.

Lemma selected_In (product_ids : list string) (p : Product) :
  In p (selected_products PRODUCTS_DF product_ids) <->
  resolves PRODUCTS_DF product_ids p.
Proof.
  unfold selected_products, resolves. rewrite filter_In, isin_In. tauto.
Qed.

Lemma selected_empty (product_ids : list string) :
  selected_products PRODUCTS_DF product_ids = [] <->
  forall p, ~ resolves PRODUCTS_DF product_ids p.
Proof.
  split.
  - intros Hnil p Hp. apply selected_In in Hp. now rewrite Hnil in Hp.
  - intros Hno.
    destruct (selected_products PRODUCTS_DF product_ids) as [|p ps] eqn:E;
      auto.
    exfalso. apply (Hno p), selected_In. rewrite E. now left.
Qed.

(** The frame the code selects holds the rows of the table whose
    identifier is in the list. *)
Lemma selected_selects (product_ids : list string) :
  selects_rows product_ids PRODUCTS_DF
               (selected_products PRODUCTS_DF product_ids).
Proof.
  unfold selected_products.
  induction PRODUCTS_DF as [|p table IH]; simpl.
  - constructor.
  - destruct (Pandas.isin (product_id p) product_ids) eqn:E.
    + apply selects_keep; [now apply isin_In|exact IH].
    + apply selects_skip; [|exact IH].
      intros Hin. apply isin_In in Hin. congruence.
Qed.

Lemma greatest_over_selected (column : Product -> Q)
      (product_ids : list string) :
  selected_products PRODUCTS_DF product_ids <> [] ->
  greatest_over PRODUCTS_DF column product_ids
    (Pandas.max (map column (selected_products PRODUCTS_DF product_ids))).
Proof.
  intros Hne.
  destruct (@max_spec (map column
                           (selected_products PRODUCTS_DF product_ids)))
    as [Hin Hub]; [now apply map_nonempty|].
  split.
  - apply in_map_iff in Hin. destruct Hin as [p [Hp Hsel]].
    exists p. split; [now apply selected_In|exact Hp].
  - intros p Hp. apply Hub, in_map. now apply selected_In.
Qed.

(** C4. When the identifiers resolve to at least one row,
    [calculate_approximate_multi_box] returns the greatest length of the
    resolved rows plus 2, their greatest width plus 2, the sum of the
    heights of the rows of the table whose identifier is in the list plus
    2, and the product of the three; when they resolve to no row it
    returns [(0, 0, 0, 0)]. *)
Theorem approximate_multi_box_spec (product_ids : list string) :
  ((exists p, resolves PRODUCTS_DF product_ids p) ->
   exists rows max_l max_w sum_h,
     selects_rows product_ids PRODUCTS_DF rows /\
     greatest_over PRODUCTS_DF length_cm product_ids max_l /\
     greatest_over PRODUCTS_DF width_cm product_ids max_w /\
     sum_h == total (map height_cm rows) /\
     calculate_approximate_multi_box PRODUCTS_DF product_ids =
     (max_l + 2, max_w + 2, sum_h + 2,
      (max_l + 2) * (max_w + 2) * (sum_h + 2))) /\
  ((forall p, ~ resolves PRODUCTS_DF product_ids p) ->
   calculate_approximate_multi_box PRODUCTS_DF product_ids = (0, 0, 0, 0)).
Proof.
  unfold calculate_approximate_multi_box. split.
  - intros [p Hp]. apply selected_In in Hp.
    assert (Hne : selected_products PRODUCTS_DF product_ids <> [])
      by (intros E; now rewrite E in Hp).
    apply empty_false in Hne as He. rewrite He.
    exists (selected_products PRODUCTS_DF product_ids).
    do 3 eexists. split; [apply selected_selects|].
    split; [now apply greatest_over_selected|].
    split; [now apply greatest_over_selected|].
    split; [apply sum_total|reflexivity].
  - intros Hno. apply selected_empty in Hno. now rewrite Hno.
Qed.

(** *** Material recommender: score, order, cost filter and selection *)

Lemma some_suitable (f : Q) :
  (exists m, In m MATERIALS_DF /\ f <= strength_rating m) ->
  suitable_materials MATERIALS_DF f <> [].
Proof.
  intros [m Hm] Hnil. apply suitable_In in Hm. now rewrite Hnil in Hm.
Qed.


(** C7. Every suitable material has a row in the sorted frame, and the
    score of its rows is [recycled * 0.005 + recyclability * 0.1 +
    biodegradability * 0.05 + (1 - carbon / M) * 0.2] where [M] is the
    greatest carbon footprint of the whole material table. *)
Theorem score_formula (f : Q) (m : Material) :
  In m MATERIALS_DF -> f <= strength_rating m ->
  exists M,
    is_max M (map carbon_footprint_per_unit_sqm MATERIALS_DF) /\
    In (mkScored m (composite_score m M)) (sorted_materials MATERIALS_DF f) /\
    forall s, In s (sorted_materials MATERIALS_DF f) -> row s = m ->
              sustainability_score s = composite_score m M.
Proof.
  intros Hin Hle.
  exists (Pandas.max (map carbon_footprint_per_unit_sqm MATERIALS_DF)).
  split; [|split].
  - apply max_spec, map_nonempty. intros E. now rewrite E in Hin.
  - apply sorted_In, scored_In. simpl. split; [|reflexivity].
    apply suitable_In. auto.
  - intros s Hs <-. apply sorted_In, scored_In in Hs. now destruct Hs.
Qed.









(** The cheapest suitable row. *)
Lemma cheapest_row (f : Q) :
  suitable_materials MATERIALS_DF f <> [] ->
  exists s0, In s0 (sorted_materials MATERIALS_DF f) /\
             cost_per_unit_area (row s0) =
             lowest_cost_material_cost MATERIALS_DF f.
Proof.
  intros Hne. destruct (@lowest_is_min MATERIALS_DF kind f Hne) as [Hin _].
  apply in_map_iff in Hin. destruct Hin as [s0 [Hc Hs]]. now exists s0.
Qed.

(** The floor cost is a cost of the table. *)
Lemma floor_in_table (f : Q) :
  suitable_materials MATERIALS_DF f <> [] ->
  exists m, In m MATERIALS_DF /\
            cost_per_unit_area m = lowest_cost_material_cost MATERIALS_DF f.
Proof.
  intros Hne. destruct (@cheapest_row f Hne) as [s0 [Hs Hc]].
  exists (row s0). split; [|exact Hc].
  apply sorted_In, scored_In in Hs. destruct Hs as [Hs _].
  now apply suitable_In in Hs.
Qed.



(** With a monotone rounding and a float64 floor, the ceiling does not go
    down between two tolerances at least 1 when the floor is within the
    higher ceiling. *)
Lemma ceiling_monotone (F t1 t2 : Q) :
  rounding_monotone -> is_float F ->
  1 <= t1 -> t1 <= t2 -> F <= fmul F t2 ->
  F <= fmul F t1 /\ fmul F t1 <= fmul F t2.
Proof.
  intros Hmono HF H1 H12 Hin. unfold fmul, is_float in *.
  destruct (Qlt_le_dec F 0) as [Hneg|Hpos].
  - assert (H21 : fl (F * t2) <= fl (F * t1)) by (apply Hmono; nra).
    assert (H1F : fl (F * t1) <= fl F) by (apply Hmono; nra).
    rewrite HF in H1F. split; lra.
  - assert (HF1 : fl F <= fl (F * t1)) by (apply Hmono; nra).
    assert (H12' : fl (F * t1) <= fl (F * t2)) by (apply Hmono; nra).
    rewrite HF in HF1. split; lra.
Qed.

(** C5, for tolerances at least 1.  With a monotone rounding, costs that
    are float64 values, a suitable material and [1 <= t1 <= t2], the
    function returns a material for both tolerances and the score of the
    one returned for [t2] is at least the score of the one returned for
    [t1]. *)
Theorem tolerance_monotone (f t1 t2 : Q) :
  rounding_monotone ->
  (forall m, In m MATERIALS_DF -> is_float (cost_per_unit_area m)) ->
  (exists m, In m MATERIALS_DF /\ f <= strength_rating m) ->
  1 <= t1 -> t1 <= t2 ->
  exists r1 r2,
    recommend_sustainable_material MATERIALS_DF f t1 = Return (Some r1) /\
    recommend_sustainable_material MATERIALS_DF f t2 = Return (Some r2) /\
    sustainability_score r1 <= sustainability_score r2.
Proof.
  intros Hmono Hfloat Hex H1 H12. apply some_suitable in Hex as Hne.
  set (F := lowest_cost_material_cost MATERIALS_DF f).
  destruct (@floor_in_table f Hne) as [m0 [Hm0 Hc0]]. fold F in Hc0.
  pose proof (Hfloat m0 Hm0) as HFf. rewrite Hc0 in HFf.
  destruct (@lowest_is_min MATERIALS_DF kind f Hne) as [_ Hlb]. fold F in Hlb.
  assert (Hfloor : forall s, In s (sorted_materials MATERIALS_DF f) ->
                             F <= cost_per_unit_area (row s)).
  { intros s Hs. apply Hlb.
    now apply (in_map (fun s => cost_per_unit_area (row s))). }
  destruct (@cheapest_row f Hne) as [s0 [Hs0 Hcs]]. fold F in Hcs.
  pose proof (recommend_outcome MATERIALS_DF f t1) as Ho1.
  pose proof (recommend_outcome MATERIALS_DF f t2) as Ho2.
  destruct Ho2 as [Hs|r2 rest2 _ Ha2 Hsd2|r2 rest2 _ Ha2]; [contradiction| |].
  - (* the higher tolerance falls back to the top of the sorted frame *)
    destruct (@recommend_some MATERIALS_DF kind arith f t1 Hne) as [r1 Hr1].
    exists r1, r2. split; [exact Hr1|]. split; [reflexivity|].
    apply (@fallback_greatest MATERIALS_DF kind f r2 rest2 Hsd2).
    now apply (@returned_in_sorted MATERIALS_DF kind arith f t1).
  - (* the higher tolerance keeps a row *)
    assert (Hr2 : In r2 (affordable_sustainable_materials MATERIALS_DF f t2))
      by (rewrite Ha2; now left).
    apply affordable_In in Hr2. destruct Hr2 as [Hr2s Hr2c]. fold F in Hr2c.
    assert (HF : F <= fmul F t2)
      by (eapply Qle_trans; [apply (Hfloor r2 Hr2s)|exact Hr2c]).
    destruct (@ceiling_monotone F t1 t2 Hmono HFf H1 H12 HF) as [HF1 HF12].
    destruct Ho1 as [Hs|r1 rest1 _ Ha1 _|r1 rest1 _ Ha1]; [contradiction| |].
    + exfalso.
      assert (Hin0 : In s0 (affordable_sustainable_materials MATERIALS_DF
                                                             f t1)).
      { apply affordable_In. split; [exact Hs0|]. fold F. now rewrite Hcs. }
      now rewrite Ha1 in Hin0.
    + exists r1, r2. split; [reflexivity|]. split; [reflexivity|].
      apply (@affordable_greatest MATERIALS_DF kind arith f t2 r2 rest2 Ha2).
      assert (Hr1 : In r1 (affordable_sustainable_materials MATERIALS_DF
                                                            f t1))
        by (rewrite Ha1; now left).
      apply affordable_In in Hr1. destruct Hr1 as [Hr1s Hr1c]. fold F in Hr1c.
      apply affordable_In. split; [exact Hr1s|]. fold F.
      eapply Qle_trans; [exact Hr1c|exact HF12].
Qed.

(** *** Baseline estimator *)

Lemma get_product_data_In (pid : string) (p : Product) :
  get_product_data PRODUCTS_DF pid = Return p ->
  In p PRODUCTS_DF /\ product_id p = pid.
Proof.
  intros H. apply iloc0_filter_Return in H. destruct H as [Hin Heq].
  apply String.eqb_eq in Heq. auto.
Qed.

Lemma material_by_id_In (mid : string) (m : Material) :
  material_by_id MATERIALS_DF mid = Return m ->
  In m MATERIALS_DF /\ material_id m = mid.
Proof.
  intros H. apply iloc0_filter_Return in H. destruct H as [Hin Heq].
  apply String.eqb_eq in Heq. auto.
Qed.

Lemma material_by_id_absent (mid : string) :
  (forall m, In m MATERIALS_DF -> material_id m <> mid) ->
  material_by_id MATERIALS_DF mid = Raise IndexError.
Proof.
  intros Hno. apply iloc0_filter_Raise. intros m Hin.
  apply String.eqb_neq. now apply Hno.
Qed.

Lemma first_row_iloc0 {A : Type} (key : A -> string) (k : string)
      (table : list A) (x : A) :
  first_row key k table x ->
  Pandas.iloc0 (filter (fun y => String.eqb (key y) k) table) = Return x.
Proof.
  intros [before [after [E [Hk Hno]]]]. apply iloc0_filter_first.
  exists before, after. split; [exact E|]. split; [now apply String.eqb_eq|].
  intros y Hy. apply String.eqb_neq. now apply Hno.
Qed.

(** C9. [get_mock_current_packaging] on an identifier whose first row in
    the product table is [p] returns each dimension of [p] times 1.2,
    their product as volume, and the first row of the material table whose
    identifier is the recorded packaging material of [p].  With [c] the
    first row of the material table with identifier
    ["cardboard_standard"], [get_mock_current_multi_packaging] returns [c]
    with the greatest length and the greatest width of the resolved rows
    and the sum of the heights of the rows of the table whose identifier
    is in the list, each times 1.5, and their product as volume; for
    identifiers that resolve to no row it returns the zero box with
    [c]. *)
Theorem baseline_spec :
  (forall pid p m,
     first_row product_id pid PRODUCTS_DF p ->
     first_row material_id (current_packaging_material p) MATERIALS_DF m ->
     get_mock_current_packaging PRODUCTS_DF MATERIALS_DF pid =
     Return (mkPackaging (length_cm p * 1.2) (width_cm p * 1.2)
                         (height_cm p * 1.2)
                         (length_cm p * 1.2 * (width_cm p * 1.2) *
                          (height_cm p * 1.2))
                         m)) /\
  (forall product_ids c,
     first_row material_id "cardboard_standard"%string MATERIALS_DF c ->
     ((exists p, resolves PRODUCTS_DF product_ids p) ->
      exists rows max_l max_w sum_h,
        selects_rows product_ids PRODUCTS_DF rows /\
        greatest_over PRODUCTS_DF length_cm product_ids max_l /\
        greatest_over PRODUCTS_DF width_cm product_ids max_w /\
        sum_h == total (map height_cm rows) /\
        get_mock_current_multi_packaging PRODUCTS_DF MATERIALS_DF
                                         product_ids =
        Return (mkPackaging (max_l * 1.5) (max_w * 1.5) (sum_h * 1.5)
                            (max_l * 1.5 * (max_w * 1.5) * (sum_h * 1.5))
                            c)) /\
     ((forall p, ~ resolves PRODUCTS_DF product_ids p) ->
      get_mock_current_multi_packaging PRODUCTS_DF MATERIALS_DF product_ids =
      Return (mkPackaging 0 0 0 0 c))).
Proof.
  split.
  - intros pid p m Hp Hm.
    apply first_row_iloc0 in Hp. apply first_row_iloc0 in Hm.
    unfold get_mock_current_packaging, get_product_data, material_by_id.
    rewrite Hp. simpl. rewrite Hm. reflexivity.
  - intros product_ids c Hc. apply first_row_iloc0 in Hc.
    unfold get_mock_current_multi_packaging, material_by_id. split.
    + intros [p Hp]. apply selected_In in Hp.
      assert (Hne : selected_products PRODUCTS_DF product_ids <> [])
        by (intros E; now rewrite E in Hp).
      apply empty_false in Hne as He. rewrite He, Hc. simpl.
      exists (selected_products PRODUCTS_DF product_ids).
      do 3 eexists. split; [apply selected_selects|].
      split; [now apply greatest_over_selected|].
      split; [now apply greatest_over_selected|].
      split; [apply sum_total|reflexivity].
    + intros Hno. apply selected_empty in Hno. rewrite Hno, Hc. reflexivity.
Qed.

(** The lookups behind the baseline raise on an identifier that is not in
    the table, also the one of the default material. *)
Lemma baseline_lookup_raises :
  (forall pid,
     (forall p, In p PRODUCTS_DF -> product_id p <> pid) ->
     get_mock_current_packaging PRODUCTS_DF MATERIALS_DF pid =
     Raise IndexError) /\
  (forall product_ids,
     (forall m, In m MATERIALS_DF ->
                material_id m <> "cardboard_standard"%string) ->
     get_mock_current_multi_packaging PRODUCTS_DF MATERIALS_DF product_ids =
     Raise IndexError).
Proof.
  split.
  - intros pid Hno. unfold get_mock_current_packaging, get_product_data.
    rewrite iloc0_filter_Raise; [reflexivity|].
    intros p Hin. apply String.eqb_neq. now apply Hno.
  - intros product_ids Hno. unfold get_mock_current_multi_packaging.
    rewrite (material_by_id_absent Hno). now destruct (Pandas.empty _).
Qed.

End Properties.

(** ** The properties on the example tables *)

Module Scenarios.
Import Examples FloatFacts.

(** The scenario of the specification: a 10 x 10 x 10 product. *)
Example single_box_scenario :
  calculate_optimal_single_box_default 10 10 10 = (11, 11, 11, 1331).
Proof.
  vm_compute. reflexivity.
Qed.

(** Fragility 6 is above every strength rating of the table, fragility 3
    is not. *)
Lemma recommend_none_iff_no_suitable_witness :
  @recommend_sustainable_material materials kind_stable binary64 6 1.2 =
  Return None /\
  exists r,
    @recommend_sustainable_material materials kind_stable binary64 3 1.2 =
    Return (Some r).
Proof.
  split.
  - apply (proj1 (@recommend_none_iff_no_suitable materials kind_stable
                                                  binary64 6 1.2)).
    intros m Hin. simpl in Hin.
    decompose [or] Hin; subst; simpl; try lra; contradiction.
  - apply (proj2 (@recommend_none_iff_no_suitable materials kind_stable
                                                  binary64 3 1.2)).
    vm_compute. discriminate.
Defined.

Lemma recommend_strength_ok_witness :
  In (row (scored_row cardboard_standard)) materials /\
  3 <= strength_rating (row (scored_row cardboard_standard)).
Proof.
  apply (@recommend_strength_ok materials kind_stable binary64 3 1.2).
  vm_compute. reflexivity.
Defined.

Lemma mug_resolves : resolves products ["P1"; "P2"]%string mug.
Proof.
  split; simpl; auto.
Qed.

Lemma approximate_multi_box_spec_witness :
  (exists rows max_l max_w sum_h,
     selects_rows ["P1"; "P2"]%string products rows /\
     greatest_over products length_cm ["P1"; "P2"]%string max_l /\
     greatest_over products width_cm ["P1"; "P2"]%string max_w /\
     sum_h == total (map height_cm rows) /\
     calculate_approximate_multi_box products ["P1"; "P2"]%string =
     (max_l + 2, max_w + 2, sum_h + 2,
      (max_l + 2) * (max_w + 2) * (sum_h + 2))) /\
  calculate_approximate_multi_box products [] = (0, 0, 0, 0).
Proof.
  split.
  - apply (proj1 (approximate_multi_box_spec products ["P1"; "P2"]%string)).
    exists mug. exact mug_resolves.
  - apply (proj2 (approximate_multi_box_spec products [])).
    intros p [_ Hin]. exact Hin.
Defined.

(** The box of the mug and the lamp, evaluated. *)
Example approximate_multi_box_scenario :
  calculate_approximate_multi_box products ["P1"; "P2"]%string =
  (22, 17, 52, 19448).
Proof.
  vm_compute. reflexivity.
Qed.

Lemma standard_suitable :
  exists m, In m materials /\ 3 <= strength_rating m.
Proof.
  exists cardboard_standard. split; [simpl; auto|simpl; lra].
Qed.


(** The costs of the example table, 1.0, 1.25, 0.5 and 2.0, are float64
    values. *)
Lemma costs_float :
  forall m, In m materials -> @is_float binary64 (cost_per_unit_area m).
Proof.
  intros m Hin. simpl in Hin.
  decompose [or] Hin; subst; try contradiction; vm_compute; reflexivity.
Qed.

(** C5 as stated fails below tolerance 1.  At fragility 3 the floor cost
    is 1.0.  With tolerance 0.5 no cost is within the ceiling 0.5, the
    fallback returns the top of the sorted frame, molded pulp; with
    tolerance 1 the ceiling is 1.0, only standard cardboard is within it and
    is returned.  The tolerance went up and the score went down.  Both
    products, 1.0 * 0.5 and 1.0 * 1, are exact in float64. *)
Lemma tolerance_not_monotone_below_one :
  0.5 <= 1 /\
  @recommend_sustainable_material materials kind_stable binary64 3 0.5 =
  Return (Some (scored_row molded_pulp)) /\
  @recommend_sustainable_material materials kind_stable binary64 3 1 =
  Return (Some (scored_row cardboard_standard)) /\
  sustainability_score (scored_row cardboard_standard) <
  sustainability_score (scored_row molded_pulp).
Proof.
  split; [lra|]. split; [vm_compute; reflexivity|].
  split; [vm_compute; reflexivity|]. vm_compute. reflexivity.
Qed.

Lemma tolerance_monotone_witness :
  exists r1 r2,
    @recommend_sustainable_material materials kind_stable binary64
                                    3 (@fl binary64 1.2) =
    Return (Some r1) /\
    @recommend_sustainable_material materials kind_stable binary64
                                    3 (@fl binary64 1.3) =
    Return (Some r2) /\
    sustainability_score r1 <= sustainability_score r2.
Proof.
  apply (@tolerance_monotone materials kind_stable binary64 3
                             (@fl binary64 1.2) (@fl binary64 1.3)).
  - exact binary64_monotone.
  - exact costs_float.
  - exact standard_suitable.
  - vm_compute. discriminate.
  - vm_compute. discriminate.
Defined.

(** The scenario of the specification: the costlier material costs 1.25
    times the cheaper one and has the higher score.  The tolerances are the
    float64 values of 1.2 and 1.3. *)
Example tolerance_scenario :
  @recommend_sustainable_material materials kind_stable binary64
                                  3 (@fl binary64 1.2) =
  Return (Some (scored_row cardboard_standard)) /\
  @recommend_sustainable_material materials kind_stable binary64
                                  3 (@fl binary64 1.3) =
  Return (Some (scored_row cardboard_recycled)).
Proof.
  split; vm_compute; reflexivity.
Qed.

Lemma score_formula_witness :
  exists M,
    is_max M (map carbon_footprint_per_unit_sqm materials) /\
    In (mkScored cardboard_standard (composite_score cardboard_standard M))
       (@sorted_materials materials kind_stable 3) /\
    forall s, In s (@sorted_materials materials kind_stable 3) ->
              row s = cardboard_standard ->
              sustainability_score s = composite_score cardboard_standard M.
Proof.
  apply (@score_formula materials kind_stable 3 cardboard_standard).
  - simpl. auto.
  - simpl. lra.
Defined.

(** The denominator is the footprint of bubble wrap, which is not suitable
    at fragility 3. *)
Example score_denominator :
  Pandas.max (map carbon_footprint_per_unit_sqm materials) =
  carbon_footprint_per_unit_sqm bubble_wrap /\
  ~ In bubble_wrap (suitable_materials materials 3) /\
  Pandas.max (map carbon_footprint_per_unit_sqm
                  (suitable_materials materials 3))
  < Pandas.max (map carbon_footprint_per_unit_sqm materials).
Proof.
  split; [vm_compute; reflexivity|]. split; [|vm_compute; reflexivity].
  intros Hin. apply RecommenderFacts.suitable_In in Hin.
  destruct Hin as [_ Hle]. simpl in Hle. lra.
Qed.



(** The ceiling is the rounded product.  The costs are the float64 values
    of 1.5 and 1.8 and the tolerance is the float64 value of 1.2: the
    decimals give 1.5 * 1.2 = 1.8, the float64 product is
    1.7999999999999998, below the float64 cost 1.8, and the function
    returns the material of lower score. *)
Example rounded_ceiling_scenario :
  @fl binary64 1.8 == cost_per_unit_area pulp_tray /\
  @fmul binary64 (cost_per_unit_area kraft_wrap) (@fl binary64 1.2) <
  cost_per_unit_area pulp_tray /\
  score_of rounding_materials kraft_wrap <
  score_of rounding_materials pulp_tray /\
  @recommend_sustainable_material rounding_materials kind_stable binary64
                                  3 (@fl binary64 1.2) =
  Return (Some (mkScored kraft_wrap (score_of rounding_materials kraft_wrap))).
Proof.
  split; [vm_compute; reflexivity|]. split; [vm_compute; reflexivity|].
  split; vm_compute; reflexivity.
Qed.

(** Why costs must not be negative for the fallback to be out of reach:
    with a floor cost of -1 and tolerance 2 the ceiling is -2, below the
    floor, and the filtered frame is empty. *)
Example fallback_with_negative_cost :
  @affordable_sustainable_materials negative_cost_materials kind_stable
                                    binary64 3 2 =
  [].
Proof.
  vm_compute. reflexivity.
Qed.

Lemma first_row_head {A : Type} (key : A -> string) (x : A) rest :
  first_row key (key x) (x :: rest) x.
Proof.
  exists [], rest. split; [reflexivity|]. split; [reflexivity|].
  intros y [].
Qed.

Lemma baseline_spec_witness :
  get_mock_current_packaging products materials "P1" =
  Return (mkPackaging (10 * 1.2) (10 * 1.2) (10 * 1.2)
                      (10 * 1.2 * (10 * 1.2) * (10 * 1.2))
                      cardboard_standard) /\
  (exists rows max_l max_w sum_h,
     selects_rows ["P1"; "P2"]%string products rows /\
     greatest_over products length_cm ["P1"; "P2"]%string max_l /\
     greatest_over products width_cm ["P1"; "P2"]%string max_w /\
     sum_h == total (map height_cm rows) /\
     get_mock_current_multi_packaging products materials
                                      ["P1"; "P2"]%string =
     Return (mkPackaging (max_l * 1.5) (max_w * 1.5) (sum_h * 1.5)
                         (max_l * 1.5 * (max_w * 1.5) * (sum_h * 1.5))
                         cardboard_standard)) /\
  get_mock_current_multi_packaging products materials [] =
  Return (mkPackaging 0 0 0 0 cardboard_standard).
Proof.
  split; [|split].
  - apply (proj1 (baseline_spec products materials) "P1"%string mug
                 cardboard_standard).
    + apply (first_row_head product_id mug).
    + apply (first_row_head material_id cardboard_standard).
  - apply (proj2 (baseline_spec products materials) ["P1"; "P2"]%string
                 cardboard_standard).
    + apply (first_row_head material_id cardboard_standard).
    + exists mug. exact mug_resolves.
  - apply (proj2 (baseline_spec products materials) [] cardboard_standard).
    + apply (first_row_head material_id cardboard_standard).
    + intros p [_ Hin]. exact Hin.
Defined.

(** The scenario of the specification: the baseline of the 10 x 10 x 10
    product is 12 x 12 x 12 with volume 1728. *)
Example baseline_scenario :
  exists pk,
    get_mock_current_packaging products materials "P1" = Return pk /\
    length pk == 12 /\ width pk == 12 /\ height pk == 12 /\ volume pk == 1728.
Proof.
  eexists. split; [reflexivity|]. repeat split; reflexivity.
Qed.

End Scenarios.


(** * Further properties of [core_logic.py] *)

From Stdlib Require Import Znat.

(** ** More facts on the pandas fragment *)

Module FrameFacts.
Import PandasFacts.

(** A series without negative values sums to at least each of its values. *)
Lemma total_nonneg (s : list Q) :
  (forall x, In x s -> 0 <= x) -> 0 <= total s.
Proof.
  induction s as [|a s IH]; intros Hpos; simpl; [lra|].
  assert (0 <= a) by (apply Hpos; now left).
  assert (0 <= total s) by (apply IH; intros x Hx; apply Hpos; now right).
  lra.
Qed.

Lemma total_ge_member (s : list Q) (x : Q) :
  (forall y, In y s -> 0 <= y) -> In x s -> x <= total s.
Proof.
  induction s as [|a s IH]; intros Hpos Hin; [destruct Hin|]. simpl.
  assert (Ha : 0 <= a) by (apply Hpos; now left).
  assert (Hs : forall y, In y s -> 0 <= y)
    by (intros y Hy; apply Hpos; now right).
  destruct Hin as [<-|Hin].
  - pose proof (@total_nonneg s Hs). lra.
  - pose proof (IH Hs Hin). lra.
Qed.

Lemma isin_ext (x : string) (values1 values2 : list string) :
  (forall v, In v values1 <-> In v values2) ->
  Pandas.isin x values1 = Pandas.isin x values2.
Proof.
  intros Hsame. apply eq_true_iff_eq. rewrite !isin_In. apply Hsame.
Qed.

End FrameFacts.

(** ** Lookups and box sizing *)

(** The components of the 4-tuple of a box. *)
Definition box_length (b : Box) : Q := fst (fst (fst b)).
Definition box_width (b : Box) : Q := snd (fst (fst b)).
Definition box_height (b : Box) : Q := snd (fst b).
Definition box_volume (b : Box) : Q := snd b.

(** Two boxes with equal numbers, whatever the fractions that write them. *)
Definition box_eq (a b : Box) : Prop :=
  box_length a == box_length b /\ box_width a == box_width b /\
  box_height a == box_height b /\ box_volume a == box_volume b.

Section SizingProperties.
Import PandasFacts FrameFacts.

Variable PRODUCTS_DF : list Product.
Variable MATERIALS_DF : list Material.

Lemma get_product_data_Return_iff (pid : string) (p : Product) :
  get_product_data PRODUCTS_DF pid = Return p <->
  exists before after,
    PRODUCTS_DF = before ++ p :: after /\ product_id p = pid /\
    forall q, In q before -> product_id q <> pid.
Proof.
  unfold get_product_data. rewrite iloc0_filter_first.
  split; intros [before [after [E [Hp Hno]]]]; exists before, after;
    (split; [exact E|]); (split; [now apply String.eqb_eq|]);
    intros q Hq; apply String.eqb_neq; now apply Hno.
Qed.

Lemma get_product_data_Raise_iff (pid : string) :
  get_product_data PRODUCTS_DF pid = Raise IndexError <->
  forall p, In p PRODUCTS_DF -> product_id p <> pid.
Proof.
  unfold get_product_data. rewrite iloc0_filter_Raise_iff.
  split; intros H p Hin; apply String.eqb_neq; now apply H.
Qed.

(** X1.  [get_product_data] returns the first row of the table with the
    identifier, and raises [IndexError] exactly when no row has it. *)
Theorem get_product_data_first (pid : string) :
  (forall p,
     get_product_data PRODUCTS_DF pid = Return p <->
     exists before after,
       PRODUCTS_DF = before ++ p :: after /\ product_id p = pid /\
       forall q, In q before -> product_id q <> pid) /\
  (get_product_data PRODUCTS_DF pid = Raise IndexError <->
   forall p, In p PRODUCTS_DF -> product_id p <> pid).
Proof.
  split.
  - intros p. apply get_product_data_Return_iff.
  - apply get_product_data_Raise_iff.
Qed.

(** X2.  With positive dimensions and a buffer that is not negative, every
    side of the box of [calculate_optimal_single_box] exceeds the side of
    the product by the buffer, and the box has at least the volume of the
    product. *)
Theorem optimal_single_box_encloses (l w h b : Q) :
  0 < l -> 0 < w -> 0 < h -> 0 <= b ->
  box_length (calculate_optimal_single_box l w h b) - l == b /\
  box_width (calculate_optimal_single_box l w h b) - w == b /\
  box_height (calculate_optimal_single_box l w h b) - h == b /\
  l * w * h <= box_volume (calculate_optimal_single_box l w h b) /\
  0 < box_volume (calculate_optimal_single_box l w h b).
Proof.
  intros Hl Hw Hh Hb. unfold box_length, box_width, box_height, box_volume.
  simpl. split; [ring|]. split; [ring|]. split; [ring|].
  assert (Hlw : l * w <= (l + b) * (w + b)) by nra.
  assert (Hlw0 : 0 < l * w) by nra.
  split; nra.
Qed.

(** X3.  The box of [calculate_optimal_single_box] grows with the product: a
    product that is no larger in any dimension gets a box that is no larger
    in any dimension nor in volume. *)
Theorem optimal_single_box_monotone (l1 w1 h1 l2 w2 h2 b : Q) :
  0 <= l1 -> 0 <= w1 -> 0 <= h1 -> 0 <= b ->
  l1 <= l2 -> w1 <= w2 -> h1 <= h2 ->
  box_length (calculate_optimal_single_box l1 w1 h1 b) <=
  box_length (calculate_optimal_single_box l2 w2 h2 b) /\
  box_width (calculate_optimal_single_box l1 w1 h1 b) <=
  box_width (calculate_optimal_single_box l2 w2 h2 b) /\
  box_height (calculate_optimal_single_box l1 w1 h1 b) <=
  box_height (calculate_optimal_single_box l2 w2 h2 b) /\
  box_volume (calculate_optimal_single_box l1 w1 h1 b) <=
  box_volume (calculate_optimal_single_box l2 w2 h2 b).
Proof.
  intros Hl Hw Hh Hb Hl12 Hw12 Hh12.
  unfold box_length, box_width, box_height, box_volume. simpl.
  split; [lra|]. split; [lra|]. split; [lra|].
  assert (H1 : (l1 + b) * (w1 + b) <= (l2 + b) * (w2 + b)) by nra.
  assert (H0 : 0 <= (l1 + b) * (w1 + b)) by nra.
  nra.
Qed.

(** The rows [isin] selects depend on the identifiers as a set: neither
    their order nor their repetition matters. *)
Lemma selected_products_ext (ids1 ids2 : list string) :
  (forall x, In x ids1 <-> In x ids2) ->
  selected_products PRODUCTS_DF ids1 = selected_products PRODUCTS_DF ids2.
Proof.
  intros Hsame. unfold selected_products. apply filter_ext.
  intros p. now apply isin_ext.
Qed.

(** X4.  Both multi-item functions give the same answer for two identifier
    lists with the same members, whatever their order and repetitions. *)
Theorem multi_box_ids_as_set (ids1 ids2 : list string) :
  (forall x, In x ids1 <-> In x ids2) ->
  calculate_approximate_multi_box PRODUCTS_DF ids1 =
  calculate_approximate_multi_box PRODUCTS_DF ids2 /\
  get_mock_current_multi_packaging PRODUCTS_DF MATERIALS_DF ids1 =
  get_mock_current_multi_packaging PRODUCTS_DF MATERIALS_DF ids2.
Proof.
  intros Hsame. unfold calculate_approximate_multi_box,
    get_mock_current_multi_packaging.
  now rewrite (@selected_products_ext ids1 ids2 Hsame).
Qed.

(** X5.  An identifier that no row of the table has changes nothing. *)
Theorem multi_box_ignores_unknown (pid : string) (ids : list string) :
  (forall p, In p PRODUCTS_DF -> product_id p <> pid) ->
  calculate_approximate_multi_box PRODUCTS_DF (pid :: ids) =
  calculate_approximate_multi_box PRODUCTS_DF ids /\
  get_mock_current_multi_packaging PRODUCTS_DF MATERIALS_DF (pid :: ids) =
  get_mock_current_multi_packaging PRODUCTS_DF MATERIALS_DF ids.
Proof.
  intros Hno.
  assert (E : selected_products PRODUCTS_DF (pid :: ids) =
              selected_products PRODUCTS_DF ids).
  { unfold selected_products. apply filter_ext_in. intros p Hin.
    unfold Pandas.isin. simpl.
    destruct (String.eqb_spec (product_id p) pid) as [Heq|_];
      [now destruct (Hno p Hin)|reflexivity]. }
  unfold calculate_approximate_multi_box, get_mock_current_multi_packaging.
  now rewrite E.
Qed.

(** X6.  When no selected height is negative, the box of
    [calculate_approximate_multi_box] exceeds every selected product by at
    least the buffer 2 in each dimension. *)
Theorem approximate_multi_box_encloses (ids : list string) (p : Product) :
  resolves PRODUCTS_DF ids p ->
  (forall q, resolves PRODUCTS_DF ids q -> 0 <= height_cm q) ->
  length_cm p + 2 <=
  box_length (calculate_approximate_multi_box PRODUCTS_DF ids) /\
  width_cm p + 2 <=
  box_width (calculate_approximate_multi_box PRODUCTS_DF ids) /\
  height_cm p + 2 <=
  box_height (calculate_approximate_multi_box PRODUCTS_DF ids).
Proof.
  intros Hp Hpos. apply selected_In in Hp.
  assert (Hne : selected_products PRODUCTS_DF ids <> [])
    by (intros E; now rewrite E in Hp).
  unfold calculate_approximate_multi_box.
  apply empty_false in Hne as He. rewrite He.
  unfold box_length, box_width, box_height. simpl.
  destruct (@max_spec (map length_cm (selected_products PRODUCTS_DF ids)))
    as [_ Hl]; [now apply map_nonempty|].
  destruct (@max_spec (map width_cm (selected_products PRODUCTS_DF ids)))
    as [_ Hw]; [now apply map_nonempty|].
  pose proof (Hl _ (in_map length_cm _ _ Hp)) as Hl'.
  pose proof (Hw _ (in_map width_cm _ _ Hp)) as Hw'.
  assert (Hh : height_cm p <=
               total (map height_cm (selected_products PRODUCTS_DF ids))).
  { apply total_ge_member; [|now apply in_map].
    intros y Hy. apply in_map_iff in Hy. destruct Hy as [q [<- Hq]].
    apply Hpos. now apply selected_In. }
  rewrite sum_total. repeat split; lra.
Qed.

(** X7.  When the identifiers select a single row, the box of
    [calculate_approximate_multi_box] is the box of
    [calculate_optimal_single_box] for that row with buffer 2. *)
Theorem multi_box_of_one (ids : list string) (p : Product) :
  selected_products PRODUCTS_DF ids = [p] ->
  box_eq (calculate_approximate_multi_box PRODUCTS_DF ids)
         (calculate_optimal_single_box (length_cm p) (width_cm p)
                                       (height_cm p) 2).
Proof.
  intros E. unfold calculate_approximate_multi_box. rewrite E.
  unfold box_eq, box_length, box_width, box_height, box_volume. simpl.
  unfold Pandas.sum. simpl. repeat split; ring.
Qed.

End SizingProperties.

(** ** Material recommender *)

(** The ranges of the material columns the weights of the score are
    written for. *)
Definition columns_in_range (m : Material) : Prop :=
  0 <= recycled_content_percent m /\ recycled_content_percent m <= 100 /\
  1 <= recyclability_score m /\ recyclability_score m <= 5 /\
  1 <= biodegradability_score m /\ biodegradability_score m <= 5 /\
  0 <= carbon_footprint_per_unit_sqm m.

Section RecommenderProperties.
Import PandasFacts SortFacts RecommenderFacts.

Variable MATERIALS_DF : list Material.
Context {kind : SortValues} {arith : Float64}.

(** X8.  Raising the fragility can only lose the recommendation: if there is
    no suitable material for a fragility, there is none for a greater one,
    whatever the tolerances. *)
Theorem recommend_none_upward (f1 f2 t1 t2 : Q) :
  f1 <= f2 ->
  recommend_sustainable_material MATERIALS_DF f1 t1 = Return None ->
  recommend_sustainable_material MATERIALS_DF f2 t2 = Return None.
Proof.
  intros Hle H1.
  pose proof (recommend_outcome MATERIALS_DF f1 t1) as Ho1.
  rewrite H1 in Ho1. inversion Ho1 as [Hs1| |]; subst.
  assert (Hs2 : suitable_materials MATERIALS_DF f2 = []).
  { apply suitable_empty. intros m Hin Hf2.
    apply (proj1 (suitable_empty MATERIALS_DF f1) Hs1 m Hin). lra. }
  unfold recommend_sustainable_material. now rewrite Hs2.
Qed.

(** X9.  A material that is the only suitable one is returned for every cost
    tolerance, with its score. *)
Theorem recommend_sole_suitable (f t : Q) (m : Material) :
  suitable_materials MATERIALS_DF f = [m] ->
  recommend_sustainable_material MATERIALS_DF f t =
  Return (Some (mkScored m (score_of MATERIALS_DF m))).
Proof.
  intros Hs.
  assert (Hsorted : sorted_materials MATERIALS_DF f =
                    [mkScored m (score_of MATERIALS_DF m)]).
  { apply Permutation_length_1_inv, Permutation_sym.
    unfold sorted_materials, scored_materials. rewrite Hs. simpl.
    apply sort_values_perm. }
  unfold recommend_sustainable_material, affordable_sustainable_materials.
  rewrite Hs, Hsorted. simpl.
  now destruct (Qle_bool _ _).
Qed.

(** X10.  For a material table whose columns are in range and that has a
    positive carbon footprint, every score of the sorted frame lies between
    0.15 and 1.45. *)
Theorem score_bounds (f : Q) (s : ScoredMaterial) :
  (forall m, In m MATERIALS_DF -> columns_in_range m) ->
  (exists m, In m MATERIALS_DF /\ 0 < carbon_footprint_per_unit_sqm m) ->
  In s (sorted_materials MATERIALS_DF f) ->
  0.15 <= sustainability_score s /\ sustainability_score s <= 1.45.
Proof.
  intros Hrange [m0 [Hm0 Hpos]] Hs.
  apply sorted_In, scored_In in Hs. destruct Hs as [Hsuit ->].
  apply suitable_In in Hsuit. destruct Hsuit as [Hin _].
  destruct (Hrange _ Hin) as (R1 & R2 & R3 & R4 & R5 & R6 & R7).
  destruct (@max_spec (map carbon_footprint_per_unit_sqm MATERIALS_DF))
    as [_ Hub].
  { apply map_nonempty. intros E. now rewrite E in Hin. }
  set (M := Pandas.max (map carbon_footprint_per_unit_sqm MATERIALS_DF))
    in *.
  assert (HM : 0 < M).
  { eapply Qlt_le_trans; [exact Hpos|]. apply Hub. now apply in_map. }
  assert (Hc : carbon_footprint_per_unit_sqm (row s) <= M)
    by (apply Hub; now apply in_map).
  assert (Hq0 : 0 <= carbon_footprint_per_unit_sqm (row s) / M).
  { apply Qle_shift_div_l; [exact HM|]. lra. }
  assert (Hq1 : carbon_footprint_per_unit_sqm (row s) / M <= 1).
  { apply Qle_shift_div_r; [exact HM|]. lra. }
  unfold score_of. fold M. split; lra.
Qed.


End RecommenderProperties.

(** ** Baseline estimator *)

Section BaselineProperties.
Import PandasFacts FrameFacts.

Variable PRODUCTS_DF : list Product.
Variable MATERIALS_DF : list Material.

Lemma material_by_id_Raise_iff (mid : string) :
  material_by_id MATERIALS_DF mid = Raise IndexError <->
  forall m, In m MATERIALS_DF -> material_id m <> mid.
Proof.
  unfold material_by_id. rewrite iloc0_filter_Raise_iff.
  split; intros H m Hin; apply String.eqb_neq; now apply H.
Qed.

Lemma mock_current_packaging_Raise_iff (pid : string) :
  get_mock_current_packaging PRODUCTS_DF MATERIALS_DF pid =
  Raise IndexError <->
  (forall p, In p PRODUCTS_DF -> product_id p <> pid) \/
  (exists p,
     get_product_data PRODUCTS_DF pid = Return p /\
     forall m, In m MATERIALS_DF ->
               material_id m <> current_packaging_material p).
Proof.
  unfold get_mock_current_packaging.
  rewrite <- (get_product_data_Raise_iff PRODUCTS_DF pid).
  destruct (get_product_data PRODUCTS_DF pid) as [p|[]] eqn:Hp; simpl.
  - split.
    + intros H. right. exists p. split; [reflexivity|].
      apply material_by_id_Raise_iff.
      destruct (material_by_id MATERIALS_DF (current_packaging_material p))
        as [m|[]]; [discriminate H|reflexivity].
    + intros [H|[q [Hq Hno]]]; [discriminate H|]. injection Hq as <-.
      apply material_by_id_Raise_iff in Hno. now rewrite Hno.
  - split; auto.
Qed.

Lemma mock_current_multi_Raise_iff (product_ids : list string) :
  get_mock_current_multi_packaging PRODUCTS_DF MATERIALS_DF product_ids =
  Raise IndexError <->
  forall m, In m MATERIALS_DF ->
            material_id m <> "cardboard_standard"%string.
Proof.
  unfold get_mock_current_multi_packaging.
  rewrite <- material_by_id_Raise_iff.
  destruct (material_by_id MATERIALS_DF "cardboard_standard") as [m|[]];
    destruct (Pandas.empty _); simpl; split; congruence.
Qed.

(** X12.  [get_mock_current_packaging] raises [IndexError] exactly when the
    product is not in the product table or its recorded packaging material
    is not in the material table; [get_mock_current_multi_packaging] raises
    it exactly when ["cardboard_standard"] is not in the material table,
    whatever the identifiers. *)
Theorem baseline_raises_iff :
  (forall pid,
     get_mock_current_packaging PRODUCTS_DF MATERIALS_DF pid =
     Raise IndexError <->
     (forall p, In p PRODUCTS_DF -> product_id p <> pid) \/
     (exists p,
        get_product_data PRODUCTS_DF pid = Return p /\
        forall m, In m MATERIALS_DF ->
                  material_id m <> current_packaging_material p)) /\
  (forall product_ids,
     get_mock_current_multi_packaging PRODUCTS_DF MATERIALS_DF product_ids =
     Raise IndexError <->
     forall m, In m MATERIALS_DF ->
               material_id m <> "cardboard_standard"%string).
Proof.
  split.
  - apply mock_current_packaging_Raise_iff.
  - apply mock_current_multi_Raise_iff.
Qed.

(** X13.  The baseline box of a product has 1.728 times the volume of the
    product. The optimal box with the default buffer is no larger than the
    baseline box when every dimension is at least 5, and it is larger when
    every dimension is positive and below 5. *)
Theorem single_box_against_baseline (pid : string) (p : Product)
        (pk : Packaging) :
  get_product_data PRODUCTS_DF pid = Return p ->
  get_mock_current_packaging PRODUCTS_DF MATERIALS_DF pid = Return pk ->
  volume pk == 1.728 * (length_cm p * width_cm p * height_cm p) /\
  (5 <= length_cm p -> 5 <= width_cm p -> 5 <= height_cm p ->
   box_volume (calculate_optimal_single_box_default
                 (length_cm p) (width_cm p) (height_cm p)) <= volume pk) /\
  (0 < length_cm p < 5 -> 0 < width_cm p < 5 -> 0 < height_cm p < 5 ->
   volume pk <
   box_volume (calculate_optimal_single_box_default
                 (length_cm p) (width_cm p) (height_cm p))).
Proof.
  intros Hp Hpk. unfold get_mock_current_packaging in Hpk.
  rewrite Hp in Hpk. simpl in Hpk.
  destruct (material_by_id MATERIALS_DF (current_packaging_material p))
    as [m|e]; [|discriminate Hpk].
  simpl in Hpk. injection Hpk as <-. unfold box_volume. simpl.
  set (l := length_cm p). set (w := width_cm p). set (h := height_cm p).
  split; [ring|]. split.
  - intros Hl Hw Hh.
    assert (H1 : (l + 1) * (w + 1) <= l * 1.2 * (w * 1.2)) by nra.
    assert (H0 : 0 <= (l + 1) * (w + 1)) by nra.
    nra.
  - intros [Hl0 Hl] [Hw0 Hw] [Hh0 Hh].
    assert (H1 : l * 1.2 * (w * 1.2) < (l + 1) * (w + 1)) by nra.
    assert (H0 : 0 < l * 1.2 * (w * 1.2)) by nra.
    nra.
Qed.

(** X14.  The multi-item baseline box has 3.375 times the volume of the bare
    stack (greatest length, greatest width, sum of heights); the approximate
    optimal box is no larger than it when the stack measures at least 4 in
    each dimension. *)
Theorem multi_box_against_baseline (ids : list string) (pk : Packaging) :
  selected_products PRODUCTS_DF ids <> [] ->
  get_mock_current_multi_packaging PRODUCTS_DF MATERIALS_DF ids =
  Return pk ->
  exists max_l max_w sum_h,
    is_max max_l (map length_cm (selected_products PRODUCTS_DF ids)) /\
    is_max max_w (map width_cm (selected_products PRODUCTS_DF ids)) /\
    sum_h == total (map height_cm (selected_products PRODUCTS_DF ids)) /\
    volume pk == 3.375 * (max_l * max_w * sum_h) /\
    (4 <= max_l -> 4 <= max_w -> 4 <= sum_h ->
     box_volume (calculate_approximate_multi_box PRODUCTS_DF ids) <=
     volume pk).
Proof.
  intros Hne Hpk.
  unfold get_mock_current_multi_packaging in Hpk.
  unfold calculate_approximate_multi_box.
  apply empty_false in Hne as He. rewrite He in *.
  destruct (material_by_id MATERIALS_DF "cardboard_standard") as [m|e];
    [|discriminate Hpk].
  simpl in Hpk. injection Hpk as <-. unfold box_volume. simpl.
  exists (Pandas.max (map length_cm (selected_products PRODUCTS_DF ids))),
         (Pandas.max (map width_cm (selected_products PRODUCTS_DF ids))),
         (Pandas.sum (map height_cm (selected_products PRODUCTS_DF ids))).
  set (l := Pandas.max (map length_cm _)).
  set (w := Pandas.max (map width_cm _)).
  set (h := Pandas.sum (map height_cm _)).
  split; [now apply max_spec, map_nonempty|].
  split; [now apply max_spec, map_nonempty|].
  split; [apply sum_total|]. split; [ring|].
  intros Hl Hw Hh.
  assert (H1 : (l + 2) * (w + 2) <= l * 1.5 * (w * 1.5)) by nra.
  assert (H0 : 0 <= (l + 2) * (w + 2)) by nra.
  nra.
Qed.

End BaselineProperties.


(** * The presentation script [app.py]

    The script is one pass from the two sidebar inputs (the selected
    product names and the cost tolerance) to the numbers it displays.  The
    calls that only render ([st.*], [plt.*] and the string formatting) are
    left out; every variable the script computes is kept, in the order of
    the source.  A variable that is assigned in one branch only, and read
    later, is an [option]: reading it unbound raises [NameError]. *)

Module App.

Inductive error : Type :=
| CoreError (e : exn)
| NameError.

(** A run of the script: it reaches its last line or stops on an error. *)
Inductive script (A : Type) : Type :=
| Completed (a : A)
| Aborted (e : error).

Arguments Completed {A} a.
Arguments Aborted {A} e.

Definition call {A : Type} (c : py A) : script A :=
  match c with
  | Return a => Completed a
  | Raise e => Aborted (CoreError e)
  end.

Definition then_ {A B : Type} (c : script A) (k : A -> script B)
  : script B :=
  match c with
  | Completed a => k a
  | Aborted e => Aborted e
  end.

Notation "x <-- c ;;; k" := (then_ c (fun x => k))
  (at level 61, c at next level, right associativity).

(** Reading a variable of the script's namespace. *)
Definition read {A : Type} (v : option A) : script A :=
  match v with
  | Some a => Completed a
  | None => Aborted NameError
  end.

(** Python's [x > y]. *)
Definition gt (x y : Q) : bool := negb (Qle_bool x y).

(** [series.mean()] *)
Definition mean (s : list Q) : Q :=
  Pandas.sum s / inject_Z (Z.of_nat (List.length s)).

(** The variables of the sizing step. *)
Record Sizing : Type := mkSizing {
  optimal_box_info : Box;
  current_pkg : Packaging;
  volume_reduction_percent : Q
}.

(** The variables assigned when a material is recommended. *)
Record Impact : Type := mkImpact {
  carbon_reduction_per_sqm : Q;
  carbon_reduction_percent : Q;
  recycled_content_increase : Q
}.

(** The numbers on the page. *)
Record Page : Type := mkPage {
  sizing : Sizing;
  avg_fragility : Q;
  recommended_material : option ScoredMaterial;
  impact : option Impact;
  estimated_shipping_cost_savings : Q;
  annual_shipping_cost_savings : Q;
  annual_carbon_savings_per_material_switch : Q
}.

Definition daily_packages_processed : Q := 500000.
Definition annual_packages_processed : Q := daily_packages_processed * 365.

Section Script.

Variable PRODUCTS_DF : list Product.
Variable MATERIALS_DF : list Material.
Context {kind : SortValues} {arith : Float64}.

(** [PRODUCTS_DF[PRODUCTS_DF['name'].isin(names)]['product_id'].tolist()] *)
Definition selected_product_ids (selected_products_names : list string)
  : list string :=
  map product_id
      (filter (fun p => Pandas.isin (product_name p) selected_products_names)
              PRODUCTS_DF).

(** The statement [if current_pkg['volume'] > 0: volume_reduction_percent =
    ...] after [volume_reduction_percent = 0]. *)
Definition volume_reduction (current_volume opt_vol : Q) : Q :=
  if gt current_volume 0
  then ((current_volume - opt_vol) / current_volume) * 100
  else 0.

(** The step "Packaging Volume Optimization". *)
Definition size_order (selected_ids : list string) : py Sizing :=
  match selected_ids with
  | [product_id] =>
      product <- get_product_data PRODUCTS_DF product_id ;;
      let optimal :=
        calculate_optimal_single_box_default
          (length_cm product) (width_cm product) (height_cm product) in
      current <- get_mock_current_packaging PRODUCTS_DF MATERIALS_DF
                                            product_id ;;
      Return (mkSizing optimal current
                       (volume_reduction (volume current)
                                         (snd optimal)))
  | _ =>
      let optimal := calculate_approximate_multi_box PRODUCTS_DF
                                                     selected_ids in
      current <- get_mock_current_multi_packaging PRODUCTS_DF MATERIALS_DF
                                                  selected_ids ;;
      Return (mkSizing optimal current
                       (volume_reduction (volume current)
                                         (snd optimal)))
  end.

(** [df['fragility_score'].mean() if not df.empty else 1] on the selected
    rows. *)
Definition order_fragility (selected_ids : list string) : Q :=
  let df := selected_products PRODUCTS_DF selected_ids in
  if Pandas.empty df then 1 else mean (map fragility_score df).

(** The assignments under [if recommended_material is not None:]. *)
Definition material_impact (current_material_data : Material)
           (recommended : ScoredMaterial) : Impact :=
  let per_sqm :=
    carbon_footprint_per_unit_sqm current_material_data -
    carbon_footprint_per_unit_sqm (row recommended) in
  let percent :=
    if gt (carbon_footprint_per_unit_sqm current_material_data) 0
    then (per_sqm / carbon_footprint_per_unit_sqm current_material_data)
         * 100
    else 0 in
  let increase :=
    recycled_content_percent (row recommended) -
    recycled_content_percent current_material_data in
  mkImpact per_sqm percent increase.

(** [(current - optimal) if current > optimal else 0] *)
Definition avg_vol_savings_per_pkg (current_volume optimal_volume : Q) : Q :=
  if gt current_volume optimal_volume
  then current_volume - optimal_volume
  else 0.

Definition annual_shipping (current_volume optimal_volume : Q) : Q :=
  (avg_vol_savings_per_pkg current_volume optimal_volume *
   annual_packages_processed * 0.0000001) / 1000000.

(** [(L/100 * W/100) * 6] *)
Definition avg_box_surface_area_sqm (optimal : Box) : Q :=
  (fst (fst (fst optimal)) / 100 * snd (fst (fst optimal)) / 100) * 6.

(** The script from the sidebar inputs on; [None] is the page shown when
    nothing is selected. *)
Definition run (selected_products_names : list string) (cost_tolerance : Q)
  : script (option Page) :=
  let selected_ids := selected_product_ids selected_products_names in
  if Pandas.empty selected_ids then Completed None
  else
    let display := selected_products PRODUCTS_DF selected_ids in
    s <-- call (size_order selected_ids) ;;;
    let fragility := order_fragility selected_ids in
    recommended <-- call (recommend_sustainable_material
                            MATERIALS_DF fragility cost_tolerance) ;;;
    let bound := option_map (material_impact (material (current_pkg s)))
                            recommended in
    let estimated :=
      (volume_reduction_percent s / 100) * 0.5 *
      Pandas.sum (map weight_kg display) in
    let shipping :=
      annual_shipping (volume (current_pkg s))
                      (snd (optimal_box_info s)) in
    let area := avg_box_surface_area_sqm (optimal_box_info s) in
    i <-- read bound ;;;
    let carbon :=
      (carbon_reduction_per_sqm i * area * annual_packages_processed)
      / 1000 in
    Completed (Some (mkPage s fragility recommended bound estimated
                            shipping carbon)).

End Script.

End App.

(** ** Facts on the arithmetic of the script *)

Module AppFacts.
Import PandasFacts FrameFacts App.

Lemma gt_true (x y : Q) : gt x y = true <-> y < x.
Proof.
  unfold gt. rewrite negb_true_iff. split.
  - intros H. apply Qnot_le_lt. intros Hle.
    apply Qle_bool_iff in Hle. congruence.
  - intros H. destruct (Qle_bool x y) eqn:E; [|reflexivity].
    apply Qle_bool_iff in E. lra.
Qed.

Lemma gt_false (x y : Q) : gt x y = false <-> x <= y.
Proof.
  unfold gt. rewrite negb_false_iff. apply Qle_bool_iff.
Qed.

Lemma inject_count_succ (n : nat) :
  inject_Z (Z.of_nat (S n)) == inject_Z (Z.of_nat n) + 1.
Proof.
  rewrite Nat2Z.inj_succ. unfold Z.succ. now rewrite inject_Z_plus.
Qed.

Lemma inject_count_pos (n : nat) : 0 < inject_Z (Z.of_nat (S n)).
Proof.
  rewrite inject_count_succ.
  assert (0 <= inject_Z (Z.of_nat n)).
  { change 0 with (inject_Z 0). rewrite <- Zle_Qle. apply Nat2Z.is_nonneg. }
  lra.
Qed.

(** The sum of [n] values between [lo] and [hi] is between [n * lo] and
    [n * hi]. *)
Lemma total_between (lo hi : Q) (s : list Q) :
  (forall x, In x s -> lo <= x /\ x <= hi) ->
  inject_Z (Z.of_nat (List.length s)) * lo <= total s /\
  total s <= inject_Z (Z.of_nat (List.length s)) * hi.
Proof.
  induction s as [|a s IH]; intros Hb.
  - change (inject_Z (Z.of_nat (List.length (@nil Q)))) with 0.
    change (total []) with 0. split; lra.
  - assert (Ha : lo <= a /\ a <= hi) by (apply Hb; now left).
    assert (Hs : forall x, In x s -> lo <= x /\ x <= hi)
      by (intros x Hx; apply Hb; now right).
    destruct (IH Hs) as [IH1 IH2].
    change (List.length (a :: s)) with (S (List.length s)).
    change (total (a :: s)) with (a + total s).
    rewrite inject_count_succ.
    set (n := inject_Z (Z.of_nat (List.length s))) in *.
    destruct Ha as [Ha1 Ha2]. split; lra.
Qed.

(** The mean of a non-empty series lies between its values. *)
Lemma mean_between (lo hi : Q) (s : list Q) :
  s <> [] ->
  (forall x, In x s -> lo <= x /\ x <= hi) ->
  lo <= mean s /\ mean s <= hi.
Proof.
  intros Hne Hb. destruct (total_between s Hb) as [H1 H2].
  unfold mean. rewrite sum_total.
  destruct s as [|a s]; [congruence|].
  pose proof (inject_count_pos (List.length s)) as Hn.
  change (List.length (a :: s)) with (S (List.length s)) in *.
  split.
  - apply Qle_shift_div_l; [exact Hn|]. lra.
  - apply Qle_shift_div_r; [exact Hn|]. lra.
Qed.

(** [(part / whole) * 100] for a positive [whole]. *)
Lemma percent_le_100 (part whole : Q) :
  0 < whole -> part <= whole -> part / whole * 100 <= 100.
Proof.
  intros Hw Hp.
  assert (part / whole <= 1) by (apply Qle_shift_div_r; [exact Hw|lra]).
  lra.
Qed.

Lemma percent_sign (part whole : Q) :
  0 < whole -> (0 <= part / whole * 100 <-> 0 <= part).
Proof.
  intros Hw. split.
  - intros H.
    assert (E : part == part / whole * whole) by (field; lra).
    assert (0 <= part / whole) by lra.
    rewrite E. apply Qmult_le_0_compat; lra.
  - intros H.
    assert (0 <= part / whole) by (apply Qle_shift_div_l; [exact Hw|lra]).
    lra.
Qed.

End AppFacts.

(** ** Properties of the script *)

Section AppProperties.
Import PandasFacts FrameFacts RecommenderFacts App AppFacts.

Variable PRODUCTS_DF : list Product.
Variable MATERIALS_DF : list Material.
Context {kind : SortValues} {arith : Float64}.

Lemma selected_product_ids_In (names : list string) (pid : string) :
  In pid (selected_product_ids PRODUCTS_DF names) <->
  exists p, In p PRODUCTS_DF /\ In (product_name p) names /\
            product_id p = pid.
Proof.
  unfold selected_product_ids. rewrite in_map_iff. split.
  - intros [p [Hid Hp]]. apply filter_In in Hp. destruct Hp as [Hin Hn].
    apply isin_In in Hn. now exists p.
  - intros [p [Hin [Hn Hid]]]. exists p. split; [exact Hid|].
    apply filter_In. split; [exact Hin|]. now apply isin_In.
Qed.

(** X15.  With unique product identifiers, a product selected by its name is
    among the selected identifiers and [get_product_data] gives back its
    row. *)
Theorem selected_product_round_trip (names : list string) (p : Product) :
  NoDup (map product_id PRODUCTS_DF) ->
  In p PRODUCTS_DF -> In (product_name p) names ->
  In (product_id p) (selected_product_ids PRODUCTS_DF names) /\
  get_product_data PRODUCTS_DF (product_id p) = Return p.
Proof.
  intros Hnd Hin Hn. split.
  - apply selected_product_ids_In. now exists p.
  - apply get_product_data_Return_iff.
    apply in_split in Hin. destruct Hin as [before [after E]].
    exists before, after. split; [exact E|]. split; [reflexivity|].
    intros q Hq Heq. rewrite E, map_app in Hnd. simpl in Hnd.
    apply NoDup_remove_2 in Hnd. apply Hnd. apply in_or_app. left.
    rewrite <- Heq. now apply in_map.
Qed.

(** An identifier the script derives from the selected names is the
    identifier of a row, so looking it up does not raise. *)
Lemma selected_id_found (names : list string) (pid : string) :
  In pid (selected_product_ids PRODUCTS_DF names) ->
  exists p, get_product_data PRODUCTS_DF pid = Return p /\ In p PRODUCTS_DF.
Proof.
  intros Hin. apply selected_product_ids_In in Hin.
  destruct Hin as [q [Hq [_ Hid]]].
  destruct (get_product_data PRODUCTS_DF pid) as [p|[]] eqn:E.
  - exists p. split; [reflexivity|].
    apply iloc0_filter_Return in E. now destruct E.
  - exfalso.
    now apply (proj1 (get_product_data_Raise_iff PRODUCTS_DF pid) E q Hq).
Qed.

Lemma recommend_never_raises (f t : Q) (e : exn) :
  recommend_sustainable_material MATERIALS_DF f t <> Raise e.
Proof.
  intros H. pose proof (recommend_outcome MATERIALS_DF f t) as Ho.
  rewrite H in Ho. inversion Ho.
Qed.

(** X16.  The reported volume reduction is 0 when the current volume is not
    positive. For a positive current volume it is at most 100 when the
    optimal volume is not negative, and it is negative exactly when the
    optimal box is the larger one. *)
Theorem volume_reduction_bounds (current_volume opt_vol : Q) :
  (current_volume <= 0 ->
   volume_reduction current_volume opt_vol = 0) /\
  (0 < current_volume -> 0 <= opt_vol ->
   volume_reduction current_volume opt_vol <= 100) /\
  (0 < current_volume ->
   (volume_reduction current_volume opt_vol < 0 <->
    current_volume < opt_vol)).
Proof.
  unfold volume_reduction. split; [|split].
  - intros H. apply gt_false in H. now rewrite H.
  - intros Hc Ho. rewrite (proj2 (gt_true current_volume 0) Hc).
    apply percent_le_100; lra.
  - intros Hc. rewrite (proj2 (gt_true current_volume 0) Hc).
    pose proof (@percent_sign (current_volume - opt_vol) current_volume Hc)
      as Hs.
    split.
    + intros Hneg. apply Qnot_le_lt. intros Hle.
      assert (0 <= current_volume - opt_vol) by lra.
      apply Hs in H. lra.
    + intros Hlt. apply Qnot_le_lt. intros Hle.
      apply Hs in Hle. lra.
Qed.

Lemma order_fragility_bounds (ids : list string) :
  selected_products PRODUCTS_DF ids <> [] ->
  exists lo hi,
    is_min lo (map fragility_score (selected_products PRODUCTS_DF ids)) /\
    is_max hi (map fragility_score (selected_products PRODUCTS_DF ids)) /\
    lo <= order_fragility PRODUCTS_DF ids /\
    order_fragility PRODUCTS_DF ids <= hi.
Proof.
  unfold order_fragility.
  intros Hne. apply empty_false in Hne as He. rewrite He.
  assert (Hm : map fragility_score (selected_products PRODUCTS_DF ids)
               <> []) by now apply map_nonempty.
  destruct (min_spec Hm) as [Hlo1 Hlo2].
  destruct (max_spec Hm) as [Hhi1 Hhi2].
  exists (Pandas.min (map fragility_score
                          (selected_products PRODUCTS_DF ids))),
         (Pandas.max (map fragility_score
                          (selected_products PRODUCTS_DF ids))).
  split; [now split|]. split; [now split|].
  apply mean_between; [exact Hm|]. intros x Hx. auto.
Qed.

(** X17.  The fragility passed to the recommender is 1 when no row is
    selected; otherwise it lies between the least and the greatest
    fragility of the selected rows. *)
Theorem order_fragility_between (ids : list string) :
  (selected_products PRODUCTS_DF ids = [] ->
   order_fragility PRODUCTS_DF ids = 1) /\
  (selected_products PRODUCTS_DF ids <> [] ->
   exists lo hi,
     is_min lo (map fragility_score (selected_products PRODUCTS_DF ids)) /\
     is_max hi (map fragility_score (selected_products PRODUCTS_DF ids)) /\
     lo <= order_fragility PRODUCTS_DF ids /\
     order_fragility PRODUCTS_DF ids <= hi).
Proof.
  split.
  - intros E. unfold order_fragility. now rewrite E.
  - apply order_fragility_bounds.
Qed.

(** X18.  When the script's fragility gets a recommendation, the material is
    a row of the material table that is strong enough for the least fragile
    selected product. *)
Theorem recommended_covers_least_fragile (ids : list string) (t : Q)
        (r : ScoredMaterial) :
  selected_products PRODUCTS_DF ids <> [] ->
  recommend_sustainable_material
    MATERIALS_DF (order_fragility PRODUCTS_DF ids) t = Return (Some r) ->
  In (row r) MATERIALS_DF /\
  exists p, resolves PRODUCTS_DF ids p /\
            fragility_score p <= strength_rating (row r).
Proof.
  intros Hne Hr. apply returned_in_sorted in Hr.
  apply sorted_In, scored_In in Hr. destruct Hr as [Hs _].
  apply suitable_In in Hs. destruct Hs as [Hin Hle]. split; [exact Hin|].
  destruct (@order_fragility_bounds ids Hne)
    as [lo [hi [[Hlo _] [_ [Hlow _]]]]].
  apply in_map_iff in Hlo. destruct Hlo as [p [Hp Hsel]].
  exists p. split; [now apply selected_In|]. rewrite Hp. lra.
Qed.

(** X19.  The projected annual shipping saving is never negative, and it is
    0 whenever the optimal box is not smaller than the current one. *)
Theorem annual_shipping_nonneg (current_volume optimal_volume : Q) :
  0 <= annual_shipping current_volume optimal_volume /\
  (current_volume <= optimal_volume ->
   annual_shipping current_volume optimal_volume == 0).
Proof.
  unfold annual_shipping, avg_vol_savings_per_pkg,
    annual_packages_processed, daily_packages_processed.
  destruct (gt current_volume optimal_volume) eqn:E.
  - apply gt_true in E. split; [|intros H; lra].
    apply Qle_shift_div_l; [lra|]. nra.
  - split; [|intros _]; unfold Qdiv; ring_simplify; try lra; reflexivity.
Qed.

(** X20.  The carbon reduction percent is 0 when the carbon footprint of the
    current material is not positive. For a positive one it is at most 100
    when the footprint of the recommended material is not negative, and it
    is negative exactly when the recommended material has the greater
    footprint. *)
Theorem material_impact_bounds (current : Material) (r : ScoredMaterial) :
  (carbon_footprint_per_unit_sqm current <= 0 ->
   carbon_reduction_percent (material_impact current r) = 0) /\
  (0 < carbon_footprint_per_unit_sqm current ->
   0 <= carbon_footprint_per_unit_sqm (row r) ->
   carbon_reduction_percent (material_impact current r) <= 100) /\
  (0 < carbon_footprint_per_unit_sqm current ->
   (carbon_reduction_percent (material_impact current r) < 0 <->
    carbon_footprint_per_unit_sqm current <
    carbon_footprint_per_unit_sqm (row r))).
Proof.
  unfold material_impact. simpl.
  set (c := carbon_footprint_per_unit_sqm current).
  set (d := carbon_footprint_per_unit_sqm (row r)).
  split; [|split].
  - intros H. apply gt_false in H. now rewrite H.
  - intros Hc Hd. rewrite (proj2 (gt_true c 0) Hc).
    apply percent_le_100; lra.
  - intros Hc. rewrite (proj2 (gt_true c 0) Hc).
    pose proof (@percent_sign (c - d) c Hc) as Hs. split.
    + intros Hneg. apply Qnot_le_lt. intros Hle.
      assert (0 <= c - d) by lra. apply Hs in H. lra.
    + intros Hlt. apply Qnot_le_lt. intros Hle. apply Hs in Hle. lra.
Qed.

(** *** The whole run *)

Lemma size_order_raises (ids : list string) (e : exn) :
  (forall pid, In pid ids ->
               exists p, get_product_data PRODUCTS_DF pid = Return p /\
                         In p PRODUCTS_DF) ->
  size_order PRODUCTS_DF MATERIALS_DF ids = Raise e ->
  (exists p, In p PRODUCTS_DF /\
             forall m, In m MATERIALS_DF ->
                       material_id m <> current_packaging_material p) \/
  (forall m, In m MATERIALS_DF ->
             material_id m <> "cardboard_standard"%string).
Proof.
  intros Hknown Hraise. destruct e.
  pose proof (mock_current_packaging_Raise_iff PRODUCTS_DF MATERIALS_DF)
    as Hone.
  pose proof (mock_current_multi_Raise_iff PRODUCTS_DF MATERIALS_DF)
    as Hmulti.
  assert (Hm : forall l,
             (current <- get_mock_current_multi_packaging
                           PRODUCTS_DF MATERIALS_DF l ;;
              Return (mkSizing
                        (calculate_approximate_multi_box PRODUCTS_DF l)
                        current
                        (volume_reduction
                           (volume current)
                           (snd (calculate_approximate_multi_box
                                   PRODUCTS_DF l))))) = Raise IndexError ->
             forall m, In m MATERIALS_DF ->
                       material_id m <> "cardboard_standard"%string).
  { intros l H. apply (Hmulti l).
    destruct (get_mock_current_multi_packaging PRODUCTS_DF MATERIALS_DF l)
      as [pk|[]]; [discriminate H|reflexivity]. }
  destruct ids as [|pid [|pid2 rest]]; simpl in Hraise.
  - right. now apply (Hm []).
  - left. destruct (Hknown pid) as [p [Hp Hin]]; [now left|].
    rewrite Hp in Hraise. simpl in Hraise.
    destruct (get_mock_current_packaging PRODUCTS_DF MATERIALS_DF pid)
      as [pk|[]] eqn:Hpk; [discriminate Hraise|].
    apply Hone in Hpk. destruct Hpk as [Hno|[q [Hq Hno]]].
    + apply iloc0_filter_Return in Hp. destruct Hp as [_ Heq].
      apply String.eqb_eq in Heq. now destruct (Hno p Hin).
    + rewrite Hp in Hq. injection Hq as <-. now exists p.
  - right. now apply (Hm (pid :: pid2 :: rest)).
Qed.

(** X21.  A product lookup never stops the script: when it stops on an
    [IndexError], a material is missing from the material table, either the
    recorded packaging material of a product or ["cardboard_standard"]. *)
Theorem run_index_error (names : list string) (t : Q) (e : exn) :
  run PRODUCTS_DF MATERIALS_DF names t = Aborted (CoreError e) ->
  (exists p, In p PRODUCTS_DF /\
             forall m, In m MATERIALS_DF ->
                       material_id m <> current_packaging_material p) \/
  (forall m, In m MATERIALS_DF ->
             material_id m <> "cardboard_standard"%string).
Proof.
  unfold run. intros H.
  destruct (Pandas.empty (selected_product_ids PRODUCTS_DF names));
    [discriminate H|].
  destruct (size_order PRODUCTS_DF MATERIALS_DF
                       (selected_product_ids PRODUCTS_DF names))
    as [s|e'] eqn:Hs; simpl in H.
  - destruct (recommend_sustainable_material MATERIALS_DF _ t)
      as [[r|]|e'] eqn:Hr; simpl in H; try discriminate H.
    now destruct (@recommend_never_raises _ t e' Hr).
  - apply (@size_order_raises (selected_product_ids PRODUCTS_DF names) e');
      [|exact Hs].
    intros pid Hin. now apply selected_id_found with (names := names).
Qed.

(** X22.  The script stops on [NameError] exactly when something is
    selected, the sizing step succeeds and the recommender returns [None]:
    the projection reads [carbon_reduction_per_sqm], which is assigned only
    when a material is recommended. *)
Theorem run_name_error_iff (names : list string) (t : Q) :
  run PRODUCTS_DF MATERIALS_DF names t = Aborted NameError <->
  selected_product_ids PRODUCTS_DF names <> [] /\
  (exists s, size_order PRODUCTS_DF MATERIALS_DF
                        (selected_product_ids PRODUCTS_DF names) =
             Return s) /\
  recommend_sustainable_material
    MATERIALS_DF
    (order_fragility PRODUCTS_DF (selected_product_ids PRODUCTS_DF names))
    t = Return None.
Proof.
  unfold run.
  destruct (selected_product_ids PRODUCTS_DF names) as [|pid ids] eqn:Hids.
  - simpl. split; [discriminate|]. intros [H _]. congruence.
  - change (Pandas.empty (pid :: ids)) with false. cbv iota.
    destruct (size_order PRODUCTS_DF MATERIALS_DF (pid :: ids))
      as [s|e'] eqn:Hs; simpl.
    + destruct (recommend_sustainable_material MATERIALS_DF _ t)
        as [[r|]|e'] eqn:Hr; simpl.
      * split; [discriminate|]. intros [_ [_ H]]. discriminate H.
      * split; [|reflexivity]. intros _. split; [discriminate|].
        split; [now exists s|reflexivity].
      * split; [discriminate|]. intros [_ [_ H]]. discriminate H.
    + split; [discriminate|]. intros [_ [[s H] _]]. discriminate H.
Qed.

(** X23.  A page that the script completes for a selection shows a
    recommended material: a row of the material table whose strength is at
    least the fragility the script computed, together with the impact
    figures against the material of the current packaging. *)
Theorem run_completed_page (names : list string) (t : Q) (page : Page) :
  run PRODUCTS_DF MATERIALS_DF names t = Completed (Some page) ->
  size_order PRODUCTS_DF MATERIALS_DF
             (selected_product_ids PRODUCTS_DF names) =
  Return (sizing page) /\
  exists r,
    recommended_material page = Some r /\
    impact page =
    Some (material_impact (material (current_pkg (sizing page))) r) /\
    In (row r) MATERIALS_DF /\
    avg_fragility page <= strength_rating (row r).
Proof.
  unfold run. intros H.
  destruct (Pandas.empty (selected_product_ids PRODUCTS_DF names));
    [discriminate H|].
  destruct (size_order PRODUCTS_DF MATERIALS_DF
                       (selected_product_ids PRODUCTS_DF names))
    as [s|e'] eqn:Hs; simpl in H; [|discriminate H].
  destruct (recommend_sustainable_material MATERIALS_DF _ t)
    as [[r|]|e'] eqn:Hr; simpl in H; try discriminate H.
  injection H as <-. simpl. split; [reflexivity|].
  exists r. split; [reflexivity|]. split; [reflexivity|].
  apply returned_in_sorted in Hr.
  apply sorted_In, scored_In in Hr. destruct Hr as [Hsuit _].
  now apply suitable_In in Hsuit.
Qed.

(** X24.  The script shows the empty page exactly when no product of the
    table has a selected name. *)
Theorem run_nothing_selected (names : list string) (t : Q) :
  run PRODUCTS_DF MATERIALS_DF names t = Completed None <->
  forall p, In p PRODUCTS_DF -> ~ In (product_name p) names.
Proof.
  unfold run.
  destruct (selected_product_ids PRODUCTS_DF names) as [|pid ids] eqn:Hids.
  - simpl. split; [|reflexivity]. intros _ p Hin Hn.
    assert (H : In (product_id p) (selected_product_ids PRODUCTS_DF names))
      by (apply selected_product_ids_In; now exists p).
    now rewrite Hids in H.
  - change (Pandas.empty (pid :: ids)) with false. cbv iota. split.
    + intros H.
      destruct (size_order PRODUCTS_DF MATERIALS_DF (pid :: ids))
        as [s|e']; simpl in H; [|discriminate H].
      destruct (recommend_sustainable_material MATERIALS_DF _ t)
        as [[r|]|e']; simpl in H; discriminate H.
    + intros Hno. exfalso.
      assert (H : In pid (selected_product_ids PRODUCTS_DF names))
        by (rewrite Hids; now left).
      apply selected_product_ids_In in H. destruct H as [p [Hin [Hn _]]].
      now apply (Hno p).
Qed.

End AppProperties.

(** ** The further properties on the example tables *)

Module MoreExamples.
Import Examples App.

(** A product whose recorded packaging material is not in the material
    table, and a product too fragile for every material of the table. *)
Definition vase : Product :=
  mkProduct "P7" "Vase" 12 12 30 1.1 4 "foam_sheet".
Definition sculpture : Product :=
  mkProduct "P8" "Glass Sculpture" 30 20 40 2.5 6 "cardboard_standard".

Definition orphan_products : list Product := [vase].
Definition fragile_products : list Product := [sculpture].

(** The page of the script for the mug alone at tolerance 1.2. *)
Definition blank_page : Page :=
  mkPage (mkSizing (0, 0, 0, 0) (mkPackaging 0 0 0 0 cardboard_standard) 0)
         0 None None 0 0 0.

Definition mug_page : Page :=
  match @run products materials kind_stable binary64 ["Mug"%string] 1.2 with
  | Completed (Some page) => page
  | _ => blank_page
  end.

End MoreExamples.

Module MoreScenarios.
Import Examples MoreExamples App.

Lemma optimal_single_box_encloses_witness :
  box_length (calculate_optimal_single_box 10 10 10 1) - 10 == 1 /\
  box_width (calculate_optimal_single_box 10 10 10 1) - 10 == 1 /\
  box_height (calculate_optimal_single_box 10 10 10 1) - 10 == 1 /\
  10 * 10 * 10 <= box_volume (calculate_optimal_single_box 10 10 10 1) /\
  0 < box_volume (calculate_optimal_single_box 10 10 10 1).
Proof.
  apply (@optimal_single_box_encloses 10 10 10 1); lra.
Defined.

Lemma optimal_single_box_monotone_witness :
  box_length (calculate_optimal_single_box 10 10 10 1) <=
  box_length (calculate_optimal_single_box 20 15 40 1) /\
  box_width (calculate_optimal_single_box 10 10 10 1) <=
  box_width (calculate_optimal_single_box 20 15 40 1) /\
  box_height (calculate_optimal_single_box 10 10 10 1) <=
  box_height (calculate_optimal_single_box 20 15 40 1) /\
  box_volume (calculate_optimal_single_box 10 10 10 1) <=
  box_volume (calculate_optimal_single_box 20 15 40 1).
Proof.
  apply (@optimal_single_box_monotone 10 10 10 20 15 40 1); lra.
Defined.

Lemma same_members :
  forall x : string,
    In x ["P1"; "P2"]%string <-> In x ["P2"; "P1"; "P1"]%string.
Proof.
  intros x. simpl. tauto.
Qed.

Lemma multi_box_ids_as_set_witness :
  calculate_approximate_multi_box products ["P1"; "P2"]%string =
  calculate_approximate_multi_box products ["P2"; "P1"; "P1"]%string /\
  get_mock_current_multi_packaging products materials ["P1"; "P2"]%string =
  get_mock_current_multi_packaging products materials
                                   ["P2"; "P1"; "P1"]%string.
Proof.
  apply (@multi_box_ids_as_set products materials
                               ["P1"; "P2"]%string
                               ["P2"; "P1"; "P1"]%string).
  exact same_members.
Defined.

Lemma no_product_P9 :
  forall p, In p products -> product_id p <> "P9"%string.
Proof.
  intros p Hin. simpl in Hin.
  decompose [or] Hin; subst; simpl; try discriminate; contradiction.
Qed.

Lemma multi_box_ignores_unknown_witness :
  calculate_approximate_multi_box products ["P9"; "P1"]%string =
  calculate_approximate_multi_box products ["P1"]%string /\
  get_mock_current_multi_packaging products materials ["P9"; "P1"]%string =
  get_mock_current_multi_packaging products materials ["P1"]%string.
Proof.
  apply (@multi_box_ignores_unknown products materials "P9"%string
                                    ["P1"]%string).
  exact no_product_P9.
Defined.

Lemma heights_nonneg :
  forall q, resolves products ["P1"; "P2"]%string q -> 0 <= height_cm q.
Proof.
  intros q [Hin _]. simpl in Hin.
  decompose [or] Hin; subst; simpl; try lra; contradiction.
Qed.

Lemma approximate_multi_box_encloses_witness :
  length_cm mug + 2 <=
  box_length (calculate_approximate_multi_box products
                                              ["P1"; "P2"]%string) /\
  width_cm mug + 2 <=
  box_width (calculate_approximate_multi_box products
                                             ["P1"; "P2"]%string) /\
  height_cm mug + 2 <=
  box_height (calculate_approximate_multi_box products
                                              ["P1"; "P2"]%string).
Proof.
  apply (@approximate_multi_box_encloses products ["P1"; "P2"]%string mug).
  - split; simpl; auto.
  - exact heights_nonneg.
Defined.

Lemma multi_box_of_one_witness :
  box_eq (calculate_approximate_multi_box products ["P1"]%string)
         (calculate_optimal_single_box (length_cm mug) (width_cm mug)
                                       (height_cm mug) 2).
Proof.
  apply (@multi_box_of_one products ["P1"]%string mug). reflexivity.
Defined.

Lemma recommend_none_upward_witness :
  @recommend_sustainable_material materials kind_stable binary64 7 1.5 =
  Return None.
Proof.
  apply (@recommend_none_upward materials kind_stable binary64 6 7 1.2 1.5).
  - lra.
  - vm_compute. reflexivity.
Defined.

Lemma recommend_sole_suitable_witness :
  @recommend_sustainable_material materials kind_stable binary64 4 1.2 =
  Return (Some (mkScored molded_pulp (score_of materials molded_pulp))).
Proof.
  apply (@recommend_sole_suitable materials kind_stable binary64 4 1.2
                                  molded_pulp).
  reflexivity.
Defined.

Lemma materials_in_range : forall m, In m materials -> columns_in_range m.
Proof.
  intros m Hin. simpl in Hin. unfold columns_in_range.
  decompose [or] Hin; subst; simpl; try contradiction; repeat split; lra.
Qed.

Lemma positive_footprint :
  exists m, In m materials /\ 0 < carbon_footprint_per_unit_sqm m.
Proof.
  exists cardboard_standard. split; [simpl; auto|simpl; lra].
Qed.

Lemma score_bounds_witness :
  0.15 <= sustainability_score (scored_row cardboard_standard) /\
  sustainability_score (scored_row cardboard_standard) <= 1.45.
Proof.
  apply (@score_bounds materials kind_stable 3
                       (scored_row cardboard_standard)).
  - exact materials_in_range.
  - exact positive_footprint.
  - vm_compute. auto.
Defined.



Lemma single_box_against_baseline_witness :
  volume (mkPackaging (10 * 1.2) (10 * 1.2) (10 * 1.2)
                      (10 * 1.2 * (10 * 1.2) * (10 * 1.2))
                      cardboard_standard) ==
  1.728 * (length_cm mug * width_cm mug * height_cm mug) /\
  (5 <= length_cm mug -> 5 <= width_cm mug -> 5 <= height_cm mug ->
   box_volume (calculate_optimal_single_box_default
                 (length_cm mug) (width_cm mug) (height_cm mug)) <=
   volume (mkPackaging (10 * 1.2) (10 * 1.2) (10 * 1.2)
                       (10 * 1.2 * (10 * 1.2) * (10 * 1.2))
                       cardboard_standard)) /\
  (0 < length_cm mug < 5 -> 0 < width_cm mug < 5 -> 0 < height_cm mug < 5 ->
   volume (mkPackaging (10 * 1.2) (10 * 1.2) (10 * 1.2)
                       (10 * 1.2 * (10 * 1.2) * (10 * 1.2))
                       cardboard_standard) <
   box_volume (calculate_optimal_single_box_default
                 (length_cm mug) (width_cm mug) (height_cm mug))).
Proof.
  apply (@single_box_against_baseline products materials "P1"%string mug);
    reflexivity.
Defined.

(** A product of 2 x 2 x 2: the optimal box, 27, is larger than the
    baseline box, 13.824, and the reported reduction is negative. *)
Example small_product_negative_reduction :
  box_volume (calculate_optimal_single_box_default 2 2 2) == 27 /\
  2 * 1.2 * (2 * 1.2) * (2 * 1.2) == 13.824 /\
  volume_reduction (2 * 1.2 * (2 * 1.2) * (2 * 1.2))
                   (box_volume (calculate_optimal_single_box_default 2 2 2))
  < 0.
Proof.
  split; [reflexivity|]. split; [reflexivity|]. vm_compute. reflexivity.
Qed.

Lemma multi_box_against_baseline_witness :
  exists max_l max_w sum_h,
    is_max max_l
      (map length_cm (selected_products products ["P1"; "P2"]%string)) /\
    is_max max_w
      (map width_cm (selected_products products ["P1"; "P2"]%string)) /\
    sum_h ==
    total (map height_cm (selected_products products ["P1"; "P2"]%string)) /\
    volume (mkPackaging (20 * 1.5) (15 * 1.5) ((0 + 10 + 40) * 1.5)
                        (20 * 1.5 * (15 * 1.5) * ((0 + 10 + 40) * 1.5))
                        cardboard_standard) ==
    3.375 * (max_l * max_w * sum_h) /\
    (4 <= max_l -> 4 <= max_w -> 4 <= sum_h ->
     box_volume (calculate_approximate_multi_box products
                                                 ["P1"; "P2"]%string) <=
     volume (mkPackaging (20 * 1.5) (15 * 1.5) ((0 + 10 + 40) * 1.5)
                         (20 * 1.5 * (15 * 1.5) * ((0 + 10 + 40) * 1.5))
                         cardboard_standard)).
Proof.
  apply (@multi_box_against_baseline products materials
                                     ["P1"; "P2"]%string).
  - discriminate.
  - reflexivity.
Defined.

Lemma product_ids_unique : NoDup (map product_id products).
Proof.
  simpl. repeat constructor; simpl; intuition discriminate.
Qed.

Lemma selected_product_round_trip_witness :
  In (product_id lamp) (selected_product_ids products ["Lamp"]%string) /\
  get_product_data products (product_id lamp) = Return lamp.
Proof.
  apply (@selected_product_round_trip products ["Lamp"]%string lamp).
  - exact product_ids_unique.
  - simpl. auto.
  - simpl. auto.
Defined.

Lemma recommended_covers_least_fragile_witness :
  In (row (scored_row molded_pulp)) materials /\
  exists p, resolves products ["P1"; "P2"]%string p /\
            fragility_score p <=
            strength_rating (row (scored_row molded_pulp)).
Proof.
  apply (@recommended_covers_least_fragile products materials kind_stable
                                           binary64
                                           ["P1"; "P2"]%string 1.2).
  - discriminate.
  - vm_compute. reflexivity.
Defined.

(** The mug and the lamp: the fragility passed to the recommender is
    3.5. *)
Example order_fragility_of_two :
  order_fragility products ["P1"; "P2"]%string == 3.5.
Proof.
  reflexivity.
Qed.

Lemma run_index_error_witness :
  (exists p, In p orphan_products /\
             forall m, In m materials ->
                       material_id m <> current_packaging_material p) \/
  (forall m, In m materials ->
             material_id m <> "cardboard_standard"%string).
Proof.
  apply (@run_index_error orphan_products materials kind_stable binary64
                          ["Vase"]%string 1.2 IndexError).
  vm_compute. reflexivity.
Defined.

(** A product too fragile for every material: the script stops on
    [NameError]. *)
Lemma run_name_error_iff_witness :
  @run fragile_products materials kind_stable binary64
       ["Glass Sculpture"]%string 1.2
  = Aborted NameError.
Proof.
  apply (proj2 (@run_name_error_iff fragile_products materials kind_stable
                                    binary64
                                    ["Glass Sculpture"]%string 1.2)).
  split; [discriminate|]. split.
  - eexists. vm_compute. reflexivity.
  - vm_compute. reflexivity.
Defined.

Lemma run_completed_page_witness :
  size_order products materials (selected_product_ids products
                                                      ["Mug"]%string) =
  Return (sizing mug_page) /\
  exists r,
    recommended_material mug_page = Some r /\
    impact mug_page =
    Some (material_impact (material (current_pkg (sizing mug_page))) r) /\
    In (row r) materials /\
    avg_fragility mug_page <= strength_rating (row r).
Proof.
  apply (@run_completed_page products materials kind_stable binary64
                             ["Mug"]%string 1.2 mug_page).
  vm_compute. reflexivity.
Defined.

(** The page of the mug: a volume reduction of about 22.97 percent and
    standard cardboard as recommended and as current material. *)
Example mug_page_figures :
  volume_reduction_percent (sizing mug_page) == 39700 / 1728 /\
  option_map row (recommended_material mug_page) = Some cardboard_standard /\
  material (current_pkg (sizing mug_page)) = cardboard_standard.
Proof.
  split; [vm_compute; reflexivity|]. split; vm_compute; reflexivity.
Qed.

End MoreScenarios.
